(** * Chem-Det-Scraper: a shallow embedding of [Chem-Det-Scraper.py]

    The development follows the source file top to bottom: the retry
    decorator, the keyword classifier, the PubChem adapter, the record
    assembler [process_row] and the orchestrator [main].

    Modelling conventions.
    - Python [int] is [Z]; Python [str] is [string] (the UTF-8 bytes of the
      text, so that [in] is the substring test on either view).
    - A call that may raise returns a [result]; only subclasses of
      [Exception] are modelled, which is what [except Exception] catches.
    - The network, the clock and the two files the program writes are
      explicit: a lookup reads its HTTP outcomes from an oracle, the delays
      slept and the file writes are recorded in traces, and [time.sleep]
      itself is an interface ([Clock]) of which only what CPython fixes is
      assumed.  Logging is not modelled.
    - The input table is the [DataFrame] that [pd.read_excel] returns, not
      the sheet: a cell of it is text or a missing value, and the table has
      the two columns that the program reads.  What the reader makes of the
      sheet (an empty cell is a missing value) is outside the program.
    - [fetch_category] is defined in the source and called nowhere; of it,
      the value computed from the link texts is modelled. *)

From Stdlib Require Import ZArith List String Ascii Bool Lia Permutation.
From Stdlib Require Import DecimalString Floats.PrimFloat.
From Stdlib Require DecimalZ OrderedTypeEx.
From Equations Require Import Equations.
Import ListNotations.

Local Open Scope string_scope.
Local Open Scope list_scope.
Local Open Scope Z_scope.

Set Implicit Arguments.

(** ** Exceptions and results *)

Inductive exn : Type :=
| StatusError (status_code : Z)   (* raise Exception(f"PubChem status ...") *)
| RequestException                (* requests.get failed *)
| JSONDecodeError                 (* res.json() on a body that is not JSON *)
| IndexError
| KeyError
| AttributeError
| TypeError
| ValueError
| ZeroDivisionError
| OverflowError
| OSError.

Inductive result (A : Type) : Type :=
| Ok (a : A)
| Raise (e : exn).
Arguments Ok {A} a.
Arguments Raise {A} e.

Definition bind {A B} (r : result A) (k : A -> result B) : result B :=
  match r with
  | Ok a => k a
  | Raise e => Raise e
  end.

Notation "x <- r ;; k" := (bind r (fun x => k))
  (at level 61, r at next level, right associativity).

(** ** [time.sleep]

    [time.sleep(d)] with an [int] argument first converts the seconds to a
    signed 64-bit count of nanoseconds and raises [OverflowError] when they
    do not fit, that is outside [-sleep_max .. sleep_max]; it then raises
    [ValueError] on a negative argument.  A delay that passes both tests is
    handed to the platform, which sleeps or refuses it (CPython 3.11 on
    Linux sleeps until an absolute deadline and raises [OSError] when the
    deadline does not fit, so the delays it accepts end below [sleep_max] by
    the reading of the monotonic clock).  Of the platform a [Clock] assumes
    only that it sleeps every delay up to a limit of its own, of at least a
    day; what it does above that limit is left open. *)

Definition sleep_max : Z := 9223372036.        (* (2^63 - 1) // 10^9 *)

Definition a_day : Z := 86400.

Class Clock : Type := {
  time_sleep : Z -> result unit;
  sleep_limit : Z;
  sleep_limit_range : a_day <= sleep_limit <= sleep_max;
  time_sleep_sleeps :
    forall d, 0 <= d <= sleep_limit -> time_sleep d = Ok tt;
  time_sleep_negative :
    forall d, - sleep_max <= d < 0 -> time_sleep d = Raise ValueError;
  time_sleep_overflow :
    forall d, d < - sleep_max \/ sleep_max < d ->
              time_sleep d = Raise OverflowError
}.

(** ** The retry decorator (source lines 29-46)

    The decorated function is a zero-argument operation once its arguments
    are fixed; it acts on a world [W] (for a lookup: the network).  The
    wrapper state is the pair of loop variables [attempts], [current_delay];
    the delays that [time.sleep] has slept are appended to [slept].
    [time.sleep] is called inside the [except] block, so an exception that
    it raises leaves the wrapper. *)

Section Retry.
Context `{Clock} {W A : Type}.
Variable func : W -> result A * W.

Definition retried : Type := result (option A) * W * list Z.

Equations? wrapper_loop (max_attempts backoff attempts current_delay : Z)
    (w : W) (slept : list Z) : retried
    by wf (Z.to_nat (max_attempts - attempts)) lt :=
  wrapper_loop max_attempts backoff attempts current_delay w slept
    with Z_lt_dec attempts max_attempts := {
    | right _ => (Ok None, w, slept)                  (* return None *)
    | left _ with func w := {
      | (Ok a, w') => (Ok (Some a), w', slept)        (* return func(...) *)
      | (Raise e, w') with time_sleep current_delay := {
        | Raise e' => (Raise e', w', slept)
        | Ok _ =>
            wrapper_loop max_attempts backoff (attempts + 1)
              (current_delay * backoff) w' (slept ++ [current_delay]) } } }.
Proof. lia. Qed.

Definition wrapper (max_attempts delay backoff : Z) (w : W) : retried :=
  wrapper_loop max_attempts backoff 0 delay w [].

(** The operation fails exactly [f] times from world [w], then returns [v]
    and leaves the world [w_end]. *)
Fixpoint fails_then_succeeds (f : nat) (w : W) (v : A) (w_end : W) : Prop :=
  match f with
  | O => func w = (Ok v, w_end)
  | S f' => exists e w', func w = (Raise e, w')
                         /\ fails_then_succeeds f' w' v w_end
  end.

(** The operation fails [n] times in a row from world [w], ending in
    [w_end]. *)
Fixpoint fails_times (n : nat) (w w_end : W) : Prop :=
  match n with
  | O => w_end = w
  | S n' => exists e w', func w = (Raise e, w') /\ fails_times n' w' w_end
  end.
End Retry.

(** [retry(max_attempts, delay, backoff)] applied to [func]: the decorator
    returns [wrapper]. *)
Definition retry `{Clock} {W A : Type} (max_attempts delay backoff : Z)
  (func : W -> result A * W) : W -> result (option A) * W * list Z :=
  wrapper func max_attempts delay backoff.

(** The delays of [n] consecutive failures: [D], [D*B], [D*B*B], ... *)
Fixpoint backoff_delays (D B : Z) (n : nat) : list Z :=
  match n with
  | O => []
  | S n' => D :: backoff_delays (D * B) B n'
  end.

(** ** Python values

    [json] is what [res.json()] and [json.load] produce.  A [cell] is a
    value of the [DataFrame] that [pd.read_excel] returned: a missing value
    ([NaN]) or text.  The reader decides which cells of the sheet are
    missing: an empty cell is, and so, by default, is a text cell that holds
    nothing or a marker such as "NA"; a cell of blanks is text. *)

#[warnings="-register-all"]
Inductive json : Type :=
| JNull
| JBool (b : bool)
| JInt (z : Z)
| JFloat (f : float)
| JStr (s : string)
| JList (l : list json)
| JDict (d : list (string * json)).

Inductive cell : Type :=
| NaN
| Text (s : string).

(** Built-ins of Python that the program calls on text and that are not
    defined in the repository: [str.lower], [str.strip], and [str] applied
    to a decoded JSON value. *)
Class PyText : Type := {
  lower : string -> string;
  strip : string -> string;
  str_json : json -> string
}.

(** [str(n)] for an [int]. *)
Definition str_int (n : Z) : string := NilZero.string_of_int (Z.to_int n).

(** [kw in name] on two [str]. *)
Fixpoint py_in (kw name : string) : bool :=
  String.prefix kw name
  || match name with
     | EmptyString => false
     | String _ rest => py_in kw rest
     end.

(** [s.zfill(width)]: zeros go after a leading sign. *)
Fixpoint zeros (n : nat) : string :=
  match n with
  | O => EmptyString
  | S n' => String "0" (zeros n')
  end.

Definition zfill (width : nat) (s : string) : string :=
  let pad := zeros (width - String.length s) in
  match s with
  | String c rest =>
      if (Ascii.eqb c "-" || Ascii.eqb c "+")%char
      then String c (pad ++ rest)%string
      else (pad ++ s)%string
  | EmptyString => pad
  end.

(** Truth value of a decoded JSON value. *)
Definition truthy (v : json) : bool :=
  match v with
  | JNull => false
  | JBool b => b
  | JInt z => negb (z =? 0)
  | JFloat f => negb (PrimFloat.eqb f 0%float)
  | JStr s => negb (String.eqb s "")
  | JList l => match l with [] => false | _ => true end
  | JDict d => match d with [] => false | _ => true end
  end.

Fixpoint assoc (key : string) (d : list (string * json)) : option json :=
  match d with
  | [] => None
  | (k, v) :: rest => if String.eqb k key then Some v else assoc key rest
  end.

(** [v.get(key, default)]: only a [dict] has the method. *)
Definition get (v : json) (key : string) (default : json) : result json :=
  match v with
  | JDict d => Ok (match assoc key d with Some x => x | None => default end)
  | _ => Raise AttributeError
  end.

(** [v[0]].  On a non-empty [str] the value is its first character, again a
    [str]. *)
Definition subscript0 (v : json) : result json :=
  match v with
  | JList (x :: _) => Ok x
  | JList [] => Raise IndexError
  | JStr (String c _) => Ok (JStr (String c ""))
  | JStr EmptyString => Raise IndexError
  | JDict _ => Raise KeyError
  | _ => Raise TypeError
  end.

(** The items that [for prop in v] visits: the elements of a list, the keys
    of a dict, the characters of a string. *)
Definition iter (v : json) : result (list json) :=
  match v with
  | JList l => Ok l
  | JDict d => Ok (map (fun kv => JStr (fst kv)) d)
  | JStr s => Ok (map (fun c => JStr (String c "")) (list_ascii_of_string s))
  | _ => Raise TypeError
  end.

(** [label == "..."] where [label] is a decoded JSON value. *)
Definition eq_str (v : json) (s : string) : bool :=
  match v with
  | JStr l => String.eqb l s
  | _ => false
  end.

(** ** The classifier (source lines 49-73) *)

Definition category_map : list (string * list string) :=
  [ ("Heterocyclic", ["triazole"; "pyrazole"; "imidazole"; "thiazole";
                      "oxazole"; "pyridine"; "quinoline"; "isoquinoline";
                      "indole"; "pyrimidine"; "piperidine"; "piperazine";
                      "morpholine"; "azetidine"]);
    ("Aromatic", ["benzene"; "phenyl"; "toluene"; "naphthalene"; "aromatic";
                  "indole"]);
    ("Aliphatic", ["methyl"; "ethyl"; "propyl"; "butyl"; "pentyl"; "hexyl";
                   "cycloalkyl"]);
    ("Halogenated", ["chloro"; "fluoro"; "bromo"; "iodo"; "halide"]);
    ("Nitrogen-Containing", ["amine"; "amino"; "urea"; "azide"; "azo";
                             "nitrile"; "hydrazine"]);
    ("Oxygen-Containing", ["alcohol"; "ether"; "aldehyde"; "ketone"; "acid";
                           "ester"; "anhydride"]);
    ("Sulfur-Containing", ["thiol"; "thio"; "sulfonamide"; "thiazole";
                           "sulfide"]);
    ("Phosphorus-Containing", ["phosphate"; "phosphonate"; "phosphine"]);
    ("Steroidal", ["steroid"; "estradiol"; "testosterone"; "corticosteroid"]) ].

(** The inner loop [for kw in keywords]: does it reach [return category]? *)
Fixpoint keywords_loop (keywords : list string) (name : string) : bool :=
  match keywords with
  | [] => false
  | kw :: rest => if py_in kw name then true else keywords_loop rest name
  end.

(** The outer loop over [category_map.items()], in insertion order, and the
    [return "Impurity"] after it. *)
Fixpoint categories_loop (items : list (string * list string)) (name : string)
  : string :=
  match items with
  | [] => "Impurity"
  | (category, keywords) :: rest =>
      if keywords_loop keywords name then category
      else categories_loop rest name
  end.

Definition guess_general_category `{PyText} (chemical_name : cell) : string :=
  match chemical_name with
  | NaN => "Impurity"                       (* pd.isna(chemical_name) *)
  | Text EmptyString => "Impurity"          (* not chemical_name *)
  | Text s => categories_loop category_map (lower s)
  end.

(** ** The PubChem adapter (source lines 75-105) *)

(** What [requests.get] gives on one call: an exception, or a response with
    its status code and, when the body parses as JSON, the decoded body. *)
Inductive http_outcome : Type :=
| ConnectionFailed
| Response (status_code : Z) (body : option json).

(** The dict that [fetch_pubchem] returns. *)
Record SourceRecord : Type := {
  pc_Chemical_Name : json;
  pc_Molecular_Formula : json;
  pc_Molecular_Weight : json;
  pc_Appearance : json
}.

(** The loop variables [formula], [weight], [appearance]. *)
Definition props_state : Type := (json * json * json)%type.

(** One iteration of [for prop in compound.get("props", [])]. *)
Definition props_step `{PyText} (st : props_state) (prop : json)
  : result props_state :=
  let '(formula, weight, appearance) := st in
  urn <- get prop "urn" (JDict []) ;;
  label <- get urn "label" (JStr "") ;;
  val <- get prop "value" (JDict []) ;;
  sval <- get val "sval" JNull ;;
  fval <- get val "fval" JNull ;;
  if eq_str label "Molecular Formula" && truthy sval then
    Ok (sval, weight, appearance)
  else if eq_str label "Molecular Weight" then
    Ok (formula, (if truthy sval then sval else JStr (str_json fval)),
        appearance)
  else if eq_str label "Appearance" && truthy sval then
    Ok (formula, weight, sval)
  else Ok st.

Fixpoint props_loop `{PyText} (props : list json) (st : props_state)
  : result props_state :=
  match props with
  | [] => Ok st
  | prop :: rest => st' <- props_step st prop ;; props_loop rest st'
  end.

(** The body of [fetch_pubchem], given the outcome of its one request. *)
Definition fetch_pubchem_body `{PyText} (cas : string) (res : http_outcome)
  : result SourceRecord :=
  match res with
  | ConnectionFailed => Raise RequestException
  | Response status_code body =>
      if negb (status_code =? 200) then Raise (StatusError status_code)
      else
        match body with
        | None => Raise JSONDecodeError
        | Some data =>
            compounds <- get data "PC_Compounds" (JList []) ;;
            compound <- subscript0 compounds ;;
            id_outer <- get compound "id" (JDict []) ;;
            ids <- get id_outer "id" (JDict []) ;;
            name <- get ids "name" (JStr cas) ;;
            props <- get compound "props" (JList []) ;;
            items <- iter props ;;
            st <- props_loop items (JStr "", JStr "", JStr "") ;;
            let '(formula, weight, appearance) := st in
            Ok {| pc_Chemical_Name := name;
                  pc_Molecular_Formula := formula;
                  pc_Molecular_Weight := weight;
                  pc_Appearance := appearance |}
        end
  end.

(** The network as seen by one decorated call: the outcome of its first
    request, of its second, and so on.  The world of the retried operation is
    the number of requests made so far. *)
Definition network : Type := nat -> http_outcome.

Definition fetch_pubchem_once `{PyText} (net : network) (cas : string)
  (k : nat) : result SourceRecord * nat :=
  (fetch_pubchem_body cas (net k), S k).

(** [@retry(max_attempts=3) def fetch_pubchem(cas)], with the decorator's
    defaults [delay=2], [backoff=2]. *)
Definition fetch_pubchem `{PyText} `{Clock} (net : network) (cas : string)
  : result (option SourceRecord) * nat * list Z :=
  retry 3 2 2 (fetch_pubchem_once net cas) 0%nat.

(** ** The record assembler (source lines 119-138) *)

Record OutputRecord : Type := {
  Product_Code : string;
  Chemical_Name : cell;
  CAS_No : string;
  Synonyms : cell;
  Molecular_Formula : json;
  Molecular_Weight : json;
  Appearance : json;
  Storage : string;
  Shipping_Conditions : string;
  Applications : string;
  Category : string
}.

Definition generate_applications (name : cell) : string :=
  "Used in chemical synthesis, pharmaceutical or industrial research.".

(** The dict substituted when [fetch_pubchem] returns [None]. *)
Definition empty_pubchem_data (cas : string) : SourceRecord :=
  {| pc_Chemical_Name := JStr cas;
     pc_Molecular_Formula := JStr "";
     pc_Molecular_Weight := JStr "";
     pc_Appearance := JStr "" |}.

(** [process_row] returns its dict, or raises what the decorated lookup
    raises; the second component is what the call slept. *)
Definition process_row `{PyText} `{Clock} (net : network) (index : Z)
  (cas : string) (chemical_name : cell) : result OutputRecord * list Z :=
  let '(fetched, _, slept) := fetch_pubchem net cas in
  (found <- fetched ;;
   let pubchem_data :=
     match found with
     | Some d => d                     (* a dict with four keys is truthy *)
     | None => empty_pubchem_data cas
     end in
   let category := guess_general_category chemical_name in
   Ok {| Product_Code := "S1-" ++ zfill 4 (str_int (index + 1));
         Chemical_Name := chemical_name;
         CAS_No := cas;
         Synonyms := chemical_name;
         Molecular_Formula := pc_Molecular_Formula pubchem_data;
         Molecular_Weight := pc_Molecular_Weight pubchem_data;
         Appearance := pc_Appearance pubchem_data;
         Storage := "2-8°C Refrigerator";
         Shipping_Conditions := "Ambient";
         Applications := generate_applications chemical_name;
         Category := category |},
   slept).

(** ** The orchestrator (source lines 140-174) *)

(** The two columns of the input table that the program reads, as
    [pd.read_excel] returned them. *)
Record Row : Type := {
  row_CAS_No : cell;
  row_Chemical_Name : cell
}.

(** The module constants that act as configuration. *)
Record Config : Type := {
  CUSTOM_START_INDEX : option Z;
  SAVE_EVERY_N_ROWS : Z
}.

(** The two files the program reads and overwrites; [None] when the path
    does not exist.  The output table is kept as the list of its rows. *)
Record Files : Type := {
  PROGRESS_FILE : option json;
  OUTPUT_FILE : option (list OutputRecord)
}.

Inductive io_event : Type :=
| Saved_output (rows : list OutputRecord)    (* DataFrame(...).to_excel *)
| Saved_progress (last_row : Z).             (* json.dump({"last_row": ...}) *)

(** [Series.dropna()] and [Series.astype(str)].  [astype(str)] of a missing
    value is the text "nan" (pandas before version 3; it matters only to the
    name lookup on line 158, where no missing value has been dropped). *)
Definition isna (c : cell) : bool :=
  match c with NaN => true | Text _ => false end.

Definition dropna (column : list cell) : list cell :=
  filter (fun c => negb (isna c)) column.

Definition astype_str (c : cell) : string :=
  match c with NaN => "nan" | Text s => s end.

(** Line 142. *)
Definition cas_list (input_df : list Row) : list string :=
  map astype_str (dropna (map row_CAS_No input_df)).

(** Lines 144-148: the value bound to [start_index]. *)
Definition start_index (cfg : Config) (fs : Files) : result json :=
  let start_index :=
    match CUSTOM_START_INDEX cfg with
    | Some n => n
    | None => 0
    end in
  match PROGRESS_FILE fs with
  | Some progress => get progress "last_row" (JInt start_index)
  | None => Ok (JInt start_index)
  end.

(** [range] and [+] take an [int]; [bool] is a subclass of [int]. *)
Definition as_int (v : json) : result Z :=
  match v with
  | JInt n => Ok n
  | JBool b => Ok (if b then 1 else 0)
  | _ => Raise TypeError
  end.

Definition py_range (start stop : Z) : list Z :=
  map (fun k => start + Z.of_nat k) (seq 0 (Z.to_nat (stop - start))).

(** [l[i]] on a list, with Python's negative indices. *)
Definition list_item {A} (l : list A) (i : Z) : result A :=
  let n := Z.of_nat (List.length l) in
  let j := if i <? 0 then i + n else i in
  if (j <? 0) || (n <=? j) then Raise IndexError
  else match nth_error l (Z.to_nat j) with
       | Some x => Ok x
       | None => Raise IndexError
       end.

(** Lines 158-159: the declared name of the first row whose trimmed CAS text
    equals [cas], or [cas] itself. *)
Fixpoint lookup_name `{PyText} (input_df : list Row) (cas : string) : cell :=
  match input_df with
  | [] => Text cas
  | row :: rest =>
      if String.eqb (strip (astype_str (row_CAS_No row))) cas
      then row_Chemical_Name row
      else lookup_name rest cas
  end.

(** The arguments of one [executor.submit(process_row, i, cas, name)]. *)
Definition Task : Type := (Z * string * cell)%type.

(** Lines 156-160. *)
Fixpoint submit_loop `{PyText} (input_df : list Row) (cas_list : list string)
  (positions : list Z) : result (list Task) :=
  match positions with
  | [] => Ok []
  | i :: rest =>
      item <- list_item cas_list i ;;
      let cas := strip item in
      let chemical_name := lookup_name input_df cas in
      futures <- submit_loop input_df cas_list rest ;;
      Ok ((i, cas, chemical_name) :: futures)
  end.

(** What the future of a task resolves to; [nets i] is the network as seen by
    the call for position [i]. *)
Definition run_task `{PyText} `{Clock} (nets : Z -> network) (t : Task)
  : result OutputRecord :=
  let '(i, cas, chemical_name) := t in
  fst (process_row (nets i) i cas chemical_name).

(** [as_completed(futures)] yields every future once, in the order in which
    they finish: [sched] lists their submission numbers in that order. *)
Definition as_completed {F} (sched : list nat) (futures : list F) : list F :=
  flat_map (fun k => match nth_error futures k with
                     | Some f => [f]
                     | None => []
                     end) sched.

Record run_state : Type := {
  output_data : list OutputRecord;
  files : Files;
  written : list io_event
}.

Definition save_output (st : run_state) : run_state :=
  {| output_data := output_data st;
     files := {| PROGRESS_FILE := PROGRESS_FILE (files st);
                 OUTPUT_FILE := Some (output_data st) |};
     written := written st ++ [Saved_output (output_data st)] |}.

Definition save_progress (last_row : Z) (st : run_state) : run_state :=
  {| output_data := output_data st;
     files := {| PROGRESS_FILE := Some (JDict [("last_row", JInt last_row)]);
                 OUTPUT_FILE := OUTPUT_FILE (files st) |};
     written := written st ++ [Saved_progress last_row] |}.

Definition append_result (r : OutputRecord) (st : run_state) : run_state :=
  {| output_data := output_data st ++ [r];
     files := files st;
     written := written st |}.

(** Lines 162-169: [count] is the enumeration index of the next completed
    future.  [count % 0] raises [ZeroDivisionError]. *)
Fixpoint drain_loop (K count : Z) (completed : list (result OutputRecord))
  (st : run_state) : result unit * run_state :=
  match completed with
  | [] => (Ok tt, st)
  | future :: rest =>
      match future with
      | Raise e => (Raise e, st)                     (* future.result() *)
      | Ok r =>
          let st := append_result r st in
          if K =? 0 then (Raise ZeroDivisionError, st)
          else
            let st := if count mod K =? 0
                      then save_progress count (save_output st)
                      else st in
            drain_loop K (count + 1) rest st
      end
  end.

Definition initial_state (fs : Files) : run_state :=
  {| output_data := match OUTPUT_FILE fs with
                    | Some rows => rows
                    | None => []
                    end;
     files := fs;
     written := [] |}.

(** The submissions of a run: lines 141-160. *)
Definition submissions `{PyText} (cfg : Config) (input_df : list Row)
  (fs : Files) : result (Z * list Task) :=
  v <- start_index cfg fs ;;
  start <- as_int v ;;
  let cas_list := cas_list input_df in
  futures <- submit_loop input_df cas_list
               (py_range start (Z.of_nat (List.length cas_list))) ;;
  Ok (start, futures).

Definition main `{PyText} `{Clock} (cfg : Config) (input_df : list Row)
  (fs : Files) (nets : Z -> network) (sched : list nat)
  : result unit * Files * list io_event :=
  match submissions cfg input_df fs with
  | Raise e => (Raise e, fs, [])
  | Ok (start, futures) =>
      let completed := as_completed sched (map (run_task nets) futures) in
      match drain_loop (SAVE_EVERY_N_ROWS cfg) (start + 1) completed
                       (initial_state fs) with
      | (Raise e, st) => (Raise e, files st, written st)
      | (Ok _, st) =>
          let st := save_progress (Z.of_nat (List.length (cas_list input_df)))
                      (save_output st) in
          (Ok tt, files st, written st)
      end
  end.

(** ** The category-listing adapter (source lines 107-117)

    [fetch_category] is called nowhere in the program.  What is modelled is
    the value it computes on lines 114-115 from the texts of the anchors
    that [soup.select("a.moreicon")] returns, in document order; the request
    and the HTML parser are outside. *)

(** [len(s)]: the number of code points, that is of the bytes that are not
    UTF-8 continuation bytes. *)
Definition is_continuation (c : ascii) : bool :=
  let n := nat_of_ascii c in ((128 <=? n) && (n <? 192))%nat.

Fixpoint py_len (s : string) : nat :=
  match s with
  | EmptyString => O
  | String c rest => ((if is_continuation c then 0 else 1) + py_len rest)%nat
  end.

(** [s.split("(")[0]]: the text before the first "(". *)
Fixpoint before_paren (s : string) : string :=
  match s with
  | EmptyString => EmptyString
  | String c rest =>
      if Ascii.eqb c "(" then EmptyString else String c (before_paren rest)
  end.

(** The condition of the comprehension on line 114. *)
Definition plausible_link `{PyText} (text : string) : bool :=
  negb (String.eqb (strip text) "") && (py_len (strip text) <? 30)%nat.

(** Line 114. *)
Definition valid_links `{PyText} (all_links : list string) : list string :=
  map (fun text => strip (before_paren (strip text)))
      (filter plausible_link all_links).

(** Line 115: [valid_links[-1] if valid_links else "Impurity"]. *)
Definition fetch_category_value `{PyText} (all_links : list string) : string :=
  last (valid_links all_links) "Impurity".

(** ** An instance of the text built-ins for examples

    [ascii_text] agrees with Python on ASCII text, and with [str] on [None],
    [bool], [int] and [str] values. *)

Definition ascii_lower (c : ascii) : ascii :=
  let n := nat_of_ascii c in
  if ((65 <=? n) && (n <=? 90))%nat then ascii_of_nat (n + 32) else c.

Fixpoint lower_ascii (s : string) : string :=
  match s with
  | EmptyString => EmptyString
  | String c rest => String (ascii_lower c) (lower_ascii rest)
  end.

Definition is_space (c : ascii) : bool :=
  let n := nat_of_ascii c in
  (((9 <=? n) && (n <=? 13)) || ((28 <=? n) && (n <=? 32)))%nat.

Fixpoint lstrip_ascii (s : string) : string :=
  match s with
  | EmptyString => EmptyString
  | String c rest => if is_space c then lstrip_ascii rest else s
  end.

Fixpoint rstrip_ascii (s : string) : string :=
  match s with
  | EmptyString => EmptyString
  | String c rest =>
      match rstrip_ascii rest with
      | EmptyString => if is_space c then EmptyString else String c EmptyString
      | rest' => String c rest'
      end
  end.

Definition strip_ascii (s : string) : string := rstrip_ascii (lstrip_ascii s).

Definition str_simple (v : json) : string :=
  match v with
  | JNull => "None"
  | JBool true => "True"
  | JBool false => "False"
  | JInt n => str_int n
  | JStr s => s
  | _ => "?"
  end.

Definition ascii_text : PyText :=
  {| lower := lower_ascii; strip := strip_ascii; str_json := str_simple |}.

(** ** A clock for the examples

    A platform that sleeps the delays up to [limit] and refuses the longer
    ones with [OSError]; [day_clock] is the one whose limit is a day. *)

Definition sleep_up_to (limit d : Z) : result unit :=
  if (d <? - sleep_max) || (sleep_max <? d) then Raise OverflowError
  else if d <? 0 then Raise ValueError
  else if limit <? d then Raise OSError
  else Ok tt.

Lemma sleep_up_to_sleeps (limit : Z) :
  a_day <= limit <= sleep_max ->
  forall d, 0 <= d <= limit -> sleep_up_to limit d = Ok tt.
Proof.
  intros Hrange d Hd. unfold sleep_up_to.
  destruct (d <? - sleep_max) eqn:H1; [apply Z.ltb_lt in H1; lia |].
  destruct (sleep_max <? d) eqn:H2; [apply Z.ltb_lt in H2; lia |].
  destruct (d <? 0) eqn:H3; [apply Z.ltb_lt in H3; lia |].
  destruct (limit <? d) eqn:H4; [apply Z.ltb_lt in H4; lia | reflexivity].
Qed.

Lemma sleep_up_to_negative (limit : Z) :
  forall d, - sleep_max <= d < 0 -> sleep_up_to limit d = Raise ValueError.
Proof.
  intros d Hd. unfold sleep_up_to.
  destruct (d <? - sleep_max) eqn:H1; [apply Z.ltb_lt in H1; lia |].
  destruct (sleep_max <? d) eqn:H2;
    [apply Z.ltb_lt in H2; unfold sleep_max in *; lia |].
  destruct (d <? 0) eqn:H3; [reflexivity | apply Z.ltb_ge in H3; lia].
Qed.

Lemma sleep_up_to_overflow (limit : Z) :
  forall d, d < - sleep_max \/ sleep_max < d ->
            sleep_up_to limit d = Raise OverflowError.
Proof.
  intros d Hd. unfold sleep_up_to.
  destruct (d <? - sleep_max) eqn:H1; [reflexivity |].
  destruct (sleep_max <? d) eqn:H2; [reflexivity |].
  apply Z.ltb_ge in H1, H2. lia.
Qed.

Definition clock_with_limit (limit : Z)
  (Hrange : a_day <= limit <= sleep_max) : Clock :=
  {| time_sleep := sleep_up_to limit;
     sleep_limit := limit;
     sleep_limit_range := Hrange;
     time_sleep_sleeps := sleep_up_to_sleeps Hrange;
     time_sleep_negative := sleep_up_to_negative limit;
     time_sleep_overflow := sleep_up_to_overflow limit |}.

Lemma a_day_in_range : a_day <= a_day <= sleep_max.
Proof. unfold a_day, sleep_max. lia. Qed.

Definition day_clock : Clock := clock_with_limit a_day_in_range.


(** ** Example data *)

(** A request that fails twice and then answers 7. *)
Definition flaky_twice (k : nat) : result Z * nat :=
  if (k <? 2)%nat then (Raise RequestException, S k) else (Ok 7, S k).

(** A property entry with a label and a string value, and a PubChem answer
    for formaldehyde whose property list has two entries labelled
    "Molecular Formula". *)
Definition labelled_entry (label sval : string) : json :=
  JDict [("urn", JDict [("label", JStr label)]);
         ("value", JDict [("sval", JStr sval)])].

Definition compound_with (name : string) (props : list json) : json :=
  JDict [("PC_Compounds",
          JList [JDict [("id", JDict [("id", JDict [("name", JStr name)])]);
                        ("props", JList props)]])].

Definition duplicate_formula_payload : json :=
  compound_with "formaldehyde"
    [labelled_entry "Molecular Formula" "CH2O";
     labelled_entry "Molecular Formula" "H2CO"].

(** A network on which every request fails. *)
Definition unreachable_network : network := fun _ => ConnectionFailed.

(** The record assembled for a position whose lookup found nothing. *)
Definition empty_enrichment_record `{PyText} (index : Z) (cas : string)
  (name : cell) : OutputRecord :=
  {| Product_Code := "S1-" ++ zfill 4 (str_int (index + 1));
     Chemical_Name := name;
     CAS_No := cas;
     Synonyms := name;
     Molecular_Formula := JStr "";
     Molecular_Weight := JStr "";
     Appearance := JStr "";
     Storage := "2-8°C Refrigerator";
     Shipping_Conditions := "Ambient";
     Applications := generate_applications name;
     Category := guess_general_category name |}.

(** Runs on a three-row table, every lookup failing. *)
Definition table_row (cas name : string) : Row :=
  {| row_CAS_No := Text cas; row_Chemical_Name := Text name |}.

Definition abc_table : list Row :=
  [table_row "A" "Alpha"; table_row "B" "Beta"; table_row "C" "Gamma"].

Definition record_A : OutputRecord :=
  @empty_enrichment_record ascii_text 0 "A" (Text "Alpha").
Definition record_B : OutputRecord :=
  @empty_enrichment_record ascii_text 1 "B" (Text "Beta").
Definition record_C : OutputRecord :=
  @empty_enrichment_record ascii_text 2 "C" (Text "Gamma").

Definition no_files : Files :=
  {| PROGRESS_FILE := None; OUTPUT_FILE := None |}.

Definition flush_every (K : Z) : Config :=
  {| CUSTOM_START_INDEX := None; SAVE_EVERY_N_ROWS := K |}.

Definition offline : Z -> network := fun _ => unreachable_network.

(** The files left by a run that was stopped after its first flush at
    checkpoint 1. *)
Definition stopped_after_A : Files :=
  {| PROGRESS_FILE := Some (JDict [("last_row", JInt 1)]);
     OUTPUT_FILE := Some [record_A] |}.

(** A table with an untrimmed identifier, a missing CAS value (an empty
    cell of the sheet) and a CAS cell of blanks only. *)
Definition ragged_table : list Row :=
  [table_row "A" "Alpha";
   table_row " B " "Beta";
   {| row_CAS_No := NaN; row_Chemical_Name := Text "Nameless" |};
   table_row "  " "Blank"].

(** A PubChem answer with a property entry that is not an object. *)
Definition broken_entry_payload : json :=
  compound_with "formaldehyde"
    [labelled_entry "Molecular Formula" "CH2O"; JNull].

(** A PubChem answer as the service gives it: the compound is identified by
    a "cid", it has no "name" and, here, no property list. *)
Definition bare_payload : json :=
  JDict [("PC_Compounds",
          JList [JDict [("id", JDict [("id", JDict [("cid", JInt 712)])])]])].

(** A network whose first request fails and whose later requests answer. *)
Definition recovering_network : network :=
  fun k => match k with
           | O => ConnectionFailed
           | _ => Response 200 (Some duplicate_formula_payload)
           end.

Definition start_at (n : Z) (K : Z) : Config :=
  {| CUSTOM_START_INDEX := Some n; SAVE_EVERY_N_ROWS := K |}.

(** A progress file whose "last_row" is a text. *)
Definition text_checkpoint : Files :=
  {| PROGRESS_FILE := Some (JDict [("last_row", JStr "7")]);
     OUTPUT_FILE := None |}.

(** An output file with one row and no progress file. *)
Definition output_A_only : Files :=
  {| PROGRESS_FILE := None; OUTPUT_FILE := Some [record_A] |}.

(** A table in which one identifier appears twice, with different names. *)
Definition twice_A_table : list Row :=
  [table_row "A" "Alpha"; table_row " A " "Second"].

(** * Vocabulary of the properties *)

(** [kw] occurs in [name] as a substring. *)
Definition occurs_in (kw name : string) : Prop :=
  exists before after, name = (before ++ kw ++ after)%string.

(** No keyword of the categories [items] occurs in [name]. *)
Definition no_keyword_in (items : list (string * list string)) (name : string)
  : Prop :=
  Forall (fun item => Forall (fun kw => ~ occurs_in kw name) (snd item)) items.

(** [category] is the first category of [items], in list order, one of
    whose keywords occurs in [name]; or no keyword occurs and [category] is
    the default. *)
Definition first_match_or_default (items : list (string * list string))
  (name category : string) : Prop :=
  (exists before keywords after,
      items = before ++ (category, keywords) :: after
      /\ no_keyword_in before name
      /\ Exists (fun kw => occurs_in kw name) keywords)
  \/ (no_keyword_in items name /\ category = "Impurity").

(** The label, string value and numeric value that one iteration reads off
    a property entry. *)
Definition prop_fields (prop : json) : result (json * json * json) :=
  urn <- get prop "urn" (JDict []) ;;
  label <- get urn "label" (JStr "") ;;
  val <- get prop "value" (JDict []) ;;
  sval <- get val "sval" JNull ;;
  fval <- get val "fval" JNull ;;
  Ok (label, sval, fval).

(** What an entry contributes to each of the three loop variables: an entry
    labelled "Molecular Formula" or "Appearance" counts when its string
    value is truthy, an entry labelled "Molecular Weight" always counts. *)
Definition formula_entry (prop : json) : option json :=
  match prop_fields prop with
  | Ok (label, sval, _) =>
      if eq_str label "Molecular Formula" && truthy sval then Some sval
      else None
  | Raise _ => None
  end.

Definition weight_entry `{PyText} (prop : json) : option json :=
  match prop_fields prop with
  | Ok (label, sval, fval) =>
      if eq_str label "Molecular Weight"
      then Some (if truthy sval then sval else JStr (str_json fval))
      else None
  | Raise _ => None
  end.

Definition appearance_entry (prop : json) : option json :=
  match prop_fields prop with
  | Ok (label, sval, _) =>
      if eq_str label "Appearance" && truthy sval then Some sval else None
  | Raise _ => None
  end.

(** [v] is the contribution of the first (last) contributing entry. *)
Definition first_match (entry : json -> option json) (items : list json)
  (v : json) : Prop :=
  exists before p after,
    items = before ++ p :: after
    /\ Forall (fun q => entry q = None) before /\ entry p = Some v.

Definition last_match (entry : json -> option json) (items : list json)
  (v : json) : Prop :=
  exists before p after,
    items = before ++ p :: after
    /\ entry p = Some v /\ Forall (fun q => entry q = None) after.

(** The value of a loop variable after the loop: that of the last
    contributing entry, or the initial one when no entry contributes. *)
Definition last_match_or (entry : json -> option json) (items : list json)
  (initial v : json) : Prop :=
  last_match entry items v
  \/ (Forall (fun q => entry q = None) items /\ v = initial).

(** The entries that the loop of [fetch_pubchem] visits. *)
Definition compound_props (data : json) : result (list json) :=
  compounds <- get data "PC_Compounds" (JList []) ;;
  compound <- subscript0 compounds ;;
  props <- get compound "props" (JList []) ;;
  iter props.

Definition or_else (o : option json) (v : json) : json :=
  match o with Some x => x | None => v end.

(** A delay that [time.sleep] sleeps on the platform at hand: it is not
    negative and within the platform's limit. *)
Definition sleepable `{Clock} (d : Z) : Prop := 0 <= d <= sleep_limit.

(** Each of the three attempts that [fetch_pubchem] makes on [net] fails. *)
Definition exhausts_retries `{PyText} (net : network) (cas : string) : Prop :=
  forall k, (k < 3)%nat -> exists e, fetch_pubchem_body cas (net k) = Raise e.

(** The three enrichment fields that [process_row] reads off a lookup. *)
Definition enrichment (found : option SourceRecord) : json * json * json :=
  match found with
  | Some d => (pc_Molecular_Formula d, pc_Molecular_Weight d, pc_Appearance d)
  | None => (JStr "", JStr "", JStr "")
  end.

Definition lookup_enrichment `{PyText} `{Clock} (net : network) (cas : string)
  : result (json * json * json) :=
  let '(fetched, _, _) := fetch_pubchem net cas in
  found <- fetched ;; Ok (enrichment found).

(** The row number that a product code carries: the decimal number after
    the "S1-" prefix. *)
Definition code_number (code : string) : option Z :=
  match code with
  | String "S" (String "1" (String "-" digits)) =>
      option_map Z.of_int (NilZero.int_of_string digits)
  | _ => None
  end.

Definition code_lt (c1 c2 : string) : Prop :=
  exists n1 n2, code_number c1 = Some n1 /\ code_number c2 = Some n2
                /\ n1 < n2.

(** The four decimal digits of a number below 10000. *)
Definition digit (n : Z) : ascii := ascii_of_nat (48 + Z.to_nat (n mod 10)).

Definition four_digits (n : Z) : string :=
  String (digit (n / 1000)) (String (digit (n / 100))
    (String (digit (n / 10)) (String (digit n) ""))).

(** The completions, counted from 1 within the run, after which the drain
    loop flushes: those whose enumeration index [start + c] is a multiple of
    the interval. *)
Definition flush_counts (start K : Z) (n : nat) : list nat :=
  filter (fun c => (start + Z.of_nat c) mod K =? 0) (seq 1 n).

(** The reading of the specification: every [K]th completion counted from
    the resume point. *)
Definition flush_counts_from_resume (K : Z) (n : nat) : list nat :=
  filter (fun c => Z.of_nat c mod K =? 0) (seq 1 n).

(** The writes of the mid-run flushes at the completions [counts]: the
    accumulator so far, then the checkpoint [start + c]. *)
Definition mid_run_flushes (start : Z) (seed records : list OutputRecord)
  (counts : list nat) : list io_event :=
  flat_map (fun c => [Saved_output (seed ++ firstn c records);
                      Saved_progress (start + Z.of_nat c)]) counts.

Definition final_flush (seed records : list OutputRecord) (total : Z)
  : list io_event :=
  [Saved_output (seed ++ records); Saved_progress total].

Definition progress_json (last_row : Z) : json :=
  JDict [("last_row", JInt last_row)].

Definition position (t : Task) : Z := fst (fst t).

(** [name] is the declared name of the first row of the table whose trimmed
    CAS text equals [cas], or [cas] itself when no row matches. *)
Definition declared_name `{PyText} (input_df : list Row) (cas : string)
  (name : cell) : Prop :=
  (exists before row after,
      input_df = before ++ row :: after
      /\ Forall (fun r => strip (astype_str (row_CAS_No r)) <> cas) before
      /\ strip (astype_str (row_CAS_No row)) = cas
      /\ name = row_Chemical_Name row)
  \/ (Forall (fun r => strip (astype_str (row_CAS_No r)) <> cas) input_df
      /\ name = Text cas).

(** The CAS value of a row as an entry of the work list: nothing for a
    missing value, the text as it stands otherwise. *)
Definition work_items (row : Row) : list string :=
  match row_CAS_No row with
  | NaN => []
  | Text s => [s]
  end.

(** ** Vocabulary of the further properties *)

(** An operation that also counts its calls. *)
Definition counting {W A : Type} (func : W -> result A * W)
  : nat * W -> result A * (nat * W) :=
  fun cw => let '(r, w') := func (snd cw) in (r, (S (fst cw), w')).

(** [category_map] without the keywords that can never change a result: a
    keyword that an earlier category already has ("indole" under Aromatic,
    "thiazole" under Sulfur-Containing), and a keyword that contains another
    keyword of its own category ("isoquinoline", "methyl", "thiol",
    "corticosteroid"). *)
Definition category_map_pruned : list (string * list string) :=
  [ ("Heterocyclic", ["triazole"; "pyrazole"; "imidazole"; "thiazole";
                      "oxazole"; "pyridine"; "quinoline";
                      "indole"; "pyrimidine"; "piperidine"; "piperazine";
                      "morpholine"; "azetidine"]);
    ("Aromatic", ["benzene"; "phenyl"; "toluene"; "naphthalene"; "aromatic"]);
    ("Aliphatic", ["ethyl"; "propyl"; "butyl"; "pentyl"; "hexyl";
                   "cycloalkyl"]);
    ("Halogenated", ["chloro"; "fluoro"; "bromo"; "iodo"; "halide"]);
    ("Nitrogen-Containing", ["amine"; "amino"; "urea"; "azide"; "azo";
                             "nitrile"; "hydrazine"]);
    ("Oxygen-Containing", ["alcohol"; "ether"; "aldehyde"; "ketone"; "acid";
                           "ester"; "anhydride"]);
    ("Sulfur-Containing", ["thio"; "sulfonamide"; "sulfide"]);
    ("Phosphorus-Containing", ["phosphate"; "phosphonate"; "phosphine"]);
    ("Steroidal", ["steroid"; "estradiol"; "testosterone"]) ].

Definition is_dict (v : json) : bool :=
  match v with JDict _ => true | _ => false end.

(** The value at [data["PC_Compounds"][0]["id"]["id"]["name"]], when every
    step of the path exists. *)
Definition canonical_name (compound : list (string * json)) : option json :=
  match assoc "id" compound with
  | Some (JDict id_outer) =>
      match assoc "id" id_outer with
      | Some (JDict ids) => assoc "name" ids
      | _ => None
      end
  | _ => None
  end.

(** The attempts before the [k]th fail and the [k]th returns [d]. *)
Definition first_success `{PyText} (net : network) (cas : string) (k : nat)
  (d : SourceRecord) : Prop :=
  (forall j, (j < k)%nat -> exists e, fetch_pubchem_body cas (net j) = Raise e)
  /\ fetch_pubchem_body cas (net k) = Ok d.

(** A progress file that exists and cannot give a start index: it is not a
    JSON object, or its "last_row" is neither an integer nor a boolean. *)
Definition unusable_checkpoint (p : json) : Prop :=
  match p with
  | JDict d =>
      match assoc "last_row" d with
      | Some (JInt _) | Some (JBool _) | None => False
      | Some _ => True
      end
  | _ => True
  end.

(** The rows that a run finds in the output file when it starts. *)
Definition seed_rows (fs : Files) : list OutputRecord :=
  output_data (initial_state fs).

(** The product code that [process_row] gives to a position. *)
Definition code_of_position (i : Z) : string :=
  "S1-" ++ zfill 4 (str_int (i + 1)).

(** Along a trace of writes that starts from the rows [acc], every write of
    the output extends the rows written before it. *)
Fixpoint grows (acc : list OutputRecord) (tr : list io_event) : Prop :=
  match tr with
  | [] => True
  | Saved_output rows :: tr' => (exists ext, rows = acc ++ ext) /\ grows rows tr'
  | Saved_progress _ :: tr' => grows acc tr'
  end.

(** The rows last written along a trace, [acc] when it writes none. *)
Fixpoint last_written (acc : list OutputRecord) (tr : list io_event)
  : list OutputRecord :=
  match tr with
  | [] => acc
  | Saved_output rows :: tr' => last_written rows tr'
  | Saved_progress _ :: tr' => last_written acc tr'
  end.

(** Two facts about [str.strip] that the properties of the category value
    use: what it returns is a part of its argument, and it returns the empty
    text on the empty text. *)
Definition strip_keeps_part `{PyText} : Prop :=
  forall s, exists before after, s = (before ++ strip s ++ after)%string.

Definition strip_of_empty `{PyText} : Prop := strip "" = "".

(** The token that line 114 makes of a link text. *)
Definition link_token `{PyText} (text : string) : string :=
  strip (before_paren (strip text)).

(** * Properties *)

(** ** The retry decorator *)

Section RetryFacts.
Context `{Clock} {W A : Type}.
Variable func : W -> result A * W.

Lemma wrapper_loop_stop (N B a d : Z) (w : W) (sl : list Z) :
  N <= a -> wrapper_loop func N B a d w sl = (Ok None, w, sl).
Proof.
  intros Hge. rewrite wrapper_loop_equation_1.
  destruct (Z_lt_dec a N) as [Hlt | Hnlt]; [lia | reflexivity].
Qed.

Lemma wrapper_loop_return (N B a d : Z) (w w' : W) (sl : list Z) (v : A) :
  a < N -> func w = (Ok v, w') ->
  wrapper_loop func N B a d w sl = (Ok (Some v), w', sl).
Proof.
  intros Hlt Hf. rewrite wrapper_loop_equation_1.
  destruct (Z_lt_dec a N) as [Hlt' | Hnlt]; [| lia].
  cbn. rewrite Hf. reflexivity.
Qed.

Lemma wrapper_loop_slept (N B a d : Z) (w w' : W) (sl : list Z) (e : exn) :
  a < N -> func w = (Raise e, w') -> time_sleep d = Ok tt ->
  wrapper_loop func N B a d w sl
  = wrapper_loop func N B (a + 1) (d * B) w' (sl ++ [d]).
Proof.
  intros Hlt Hf Hd. rewrite wrapper_loop_equation_1.
  destruct (Z_lt_dec a N) as [Hlt' | Hnlt]; [| lia].
  cbn. rewrite Hf. cbn. rewrite Hd. reflexivity.
Qed.

Lemma wrapper_loop_retry (N B a d : Z) (w w' : W) (sl : list Z) (e : exn) :
  a < N -> func w = (Raise e, w') -> sleepable d ->
  wrapper_loop func N B a d w sl
  = wrapper_loop func N B (a + 1) (d * B) w' (sl ++ [d]).
Proof.
  intros Hlt Hf Hd. apply wrapper_loop_slept with (e := e); try assumption.
  apply time_sleep_sleeps. exact Hd.
Qed.

Lemma wrapper_loop_sleep_raises (N B a d : Z) (w w' : W) (sl : list Z)
  (e e' : exn) :
  a < N -> func w = (Raise e, w') -> time_sleep d = Raise e' ->
  wrapper_loop func N B a d w sl = (Raise e', w', sl).
Proof.
  intros Hlt Hf Hd. rewrite wrapper_loop_equation_1.
  destruct (Z_lt_dec a N) as [Hlt' | Hnlt]; [| lia].
  cbn. rewrite Hf. cbn. rewrite Hd. reflexivity.
Qed.

Lemma wrapper_loop_succeeds (f : nat) :
  forall (N B a d : Z) (w w_end : W) (sl : list Z) (v : A),
    fails_then_succeeds func f w v w_end ->
    Forall sleepable (backoff_delays d B f) -> a + Z.of_nat f < N ->
    wrapper_loop func N B a d w sl
    = (Ok (Some v), w_end, sl ++ backoff_delays d B f).
Proof.
  induction f as [| f IH]; intros N B a d w w_end sl v Hrun Hd Hlt.
  - cbn in Hrun.
    rewrite wrapper_loop_return with (v := v) (w' := w_end)
      by (assumption || lia).
    cbn. rewrite app_nil_r. reflexivity.
  - destruct Hrun as (e & w' & Hf & Hrest).
    cbn [backoff_delays] in Hd. inversion Hd as [| ? ? Hhead Htail]; subst.
    rewrite wrapper_loop_retry with (e := e) (w' := w')
      by (assumption || lia).
    rewrite IH with (w_end := w_end) (v := v)
      by (assumption || lia).
    cbn. rewrite <- app_assoc. reflexivity.
Qed.

Lemma wrapper_loop_exhausted (n : nat) :
  forall (N B a d : Z) (w w_end : W) (sl : list Z),
    fails_times func n w w_end ->
    Forall sleepable (backoff_delays d B n) -> n = Z.to_nat (N - a) ->
    wrapper_loop func N B a d w sl
    = (Ok None, w_end, sl ++ backoff_delays d B n).
Proof.
  induction n as [| n IH]; intros N B a d w w_end sl Hrun Hd Hn.
  - cbn in Hrun. subst w_end. rewrite wrapper_loop_stop by lia.
    cbn. rewrite app_nil_r. reflexivity.
  - destruct Hrun as (e & w' & Hf & Hrest).
    cbn [backoff_delays] in Hd. inversion Hd as [| ? ? Hhead Htail]; subst.
    rewrite wrapper_loop_retry with (e := e) (w' := w')
      by (assumption || lia).
    rewrite IH with (w_end := w_end)
      by (assumption || lia).
    cbn. rewrite <- app_assoc. reflexivity.
Qed.

Lemma fails_then_succeeds_prefix (f : nat) :
  forall (n : nat) (w w_end : W) (v : A),
    fails_then_succeeds func f w v w_end -> (n <= f)%nat ->
    exists w', fails_times func n w w'.
Proof.
  induction f as [| f IH]; intros n w w_end v Hrun Hle.
  - assert (n = 0%nat) by lia. subst n. exists w. reflexivity.
  - destruct n as [| n]; [exists w; reflexivity |].
    destruct Hrun as (e & w' & Hf & Hrest).
    destruct (IH n w' w_end v Hrest) as (w2 & H2); [lia |].
    exists w2, e, w'. split; assumption.
Qed.

Lemma wrapper_loop_never_raises (n : nat) :
  forall (N B a d : Z) (w : W) (sl : list Z),
    n = Z.to_nat (N - a) -> Forall sleepable (backoff_delays d B n) ->
    exists found w' sl', wrapper_loop func N B a d w sl = (Ok found, w', sl').
Proof.
  induction n as [| n IH]; intros N B a d w sl Hn Hd.
  - rewrite wrapper_loop_stop by lia. eauto.
  - cbn [backoff_delays] in Hd. inversion Hd as [| ? ? Hhead Htail]; subst.
    destruct (func w) as [[v | e] w'] eqn:Hf.
    + rewrite wrapper_loop_return with (v := v) (w' := w')
        by (assumption || lia).
      eauto.
    + rewrite wrapper_loop_retry with (e := e) (w' := w')
        by (assumption || lia).
      apply IH; [lia | exact Htail].
Qed.

Lemma wrapper_never_raises (N D B : Z) (w : W) :
  Forall sleepable (backoff_delays D B (Z.to_nat N)) ->
  exists found w' sl', wrapper func N D B w = (Ok found, w', sl').
Proof.
  intros HD. unfold wrapper.
  apply wrapper_loop_never_raises with (n := Z.to_nat (N - 0)).
  - reflexivity.
  - rewrite Z.sub_0_r. exact HD.
Qed.
End RetryFacts.

Lemma backoff_delays_nth (n : nat) :
  forall (D B : Z) (k : nat), (k < n)%nat ->
    nth_error (backoff_delays D B n) k = Some (D * B ^ Z.of_nat k).
Proof.
  induction n as [| n IH]; intros D B k Hk; [lia |].
  destruct k as [| k]; cbn [backoff_delays nth_error].
  - f_equal. cbn. lia.
  - rewrite IH by lia. f_equal.
    rewrite Nat2Z.inj_succ, Z.pow_succ_r by lia. lia.
Qed.

Lemma backoff_delays_length (n : nat) :
  forall D B : Z, List.length (backoff_delays D B n) = n.
Proof.
  induction n as [| n IH]; intros D B; cbn; [| rewrite IH]; reflexivity.
Qed.

Lemma sleepable_prefix `{Clock} (n : nat) :
  forall (D B : Z) (m : nat),
    (m <= n)%nat -> Forall sleepable (backoff_delays D B n) ->
    Forall sleepable (backoff_delays D B m).
Proof.
  induction n as [| n IH]; intros D B [| m] Hm Hall; cbn [backoff_delays];
    [constructor | lia | constructor |].
  cbn [backoff_delays] in Hall. inversion Hall as [| ? ? Hhead Htail]; subst.
  constructor; [exact Hhead | apply IH; [lia | exact Htail]].
Qed.

(** The delays 2, 4 and 8 of the decorated lookup are within a day. *)
Lemma lookup_delays_sleepable `{Clock} :
  Forall sleepable (backoff_delays 2 2 3).
Proof.
  pose proof sleep_limit_range as Hlimit. unfold a_day in Hlimit.
  repeat constructor; unfold sleepable; cbn; lia.
Qed.

(** C5, with the condition that makes it hold.  An operation that fails
    exactly [f] times and then returns [v], retried with budget [N], initial
    delay [D] and multiplier [B] such that [time.sleep] sleeps each of the
    delays [D], [D*B], [D*B^2], ... that follow the failed attempts (there
    are [min f N] of them): with [N >= f+1] the wrapper returns [v]; with
    [N <= f] it returns [None] and raises nothing; the delays slept are
    those, one after each failed attempt (so D=2, B=2 sleeps 2 then 4 before
    the third attempt). *)
Theorem retry_contract `{Clock} {W A : Type} (func : W -> result A * W)
  (f : nat) (w w_end : W) (v : A) (N D B : Z) :
  fails_then_succeeds func f w v w_end ->
  Forall sleepable (backoff_delays D B (Nat.min f (Z.to_nat N))) ->
  (Z.of_nat f + 1 <= N ->
     retry N D B func w = (Ok (Some v), w_end, backoff_delays D B f))
  /\ (N <= Z.of_nat f ->
     exists w', retry N D B func w
                = (Ok None, w', backoff_delays D B (Z.to_nat N)))
  /\ (forall n k, (k < n)%nat ->
        nth_error (backoff_delays D B n) k = Some (D * B ^ Z.of_nat k))
  /\ backoff_delays 2 2 2 = [2; 4].
Proof.
  intros Hrun Hsleep. repeat split.
  - intros HN. unfold retry, wrapper.
    rewrite Nat.min_l in Hsleep by lia.
    rewrite wrapper_loop_succeeds with (f := f) (w_end := w_end) (v := v)
      by (assumption || lia).
    reflexivity.
  - intros HN.
    destruct (@fails_then_succeeds_prefix W A func f (Z.to_nat N) w w_end v
                Hrun ltac:(lia)) as (w' & Hfail).
    exists w'. unfold retry, wrapper.
    rewrite Nat.min_r in Hsleep by lia.
    rewrite wrapper_loop_exhausted with (n := Z.to_nat N) (w_end := w')
      by (assumption || lia || (f_equal; lia)).
    reflexivity.
  - intros n k Hk. apply backoff_delays_nth. exact Hk.
Qed.

Lemma retry_contract_witness :
  @retry day_clock _ _ 3 2 2 flaky_twice 0%nat = (Ok (Some 7), 3%nat, [2; 4])
  /\ exists w',
       @retry day_clock _ _ 2 2 2 flaky_twice 0%nat = (Ok None, w', [2; 4]).
Proof.
  assert (Hrun : fails_then_succeeds flaky_twice 2 0%nat 7 3%nat).
  { cbn. exists RequestException, 1%nat. split; [reflexivity |].
    exists RequestException, 2%nat. split; reflexivity. }
  assert (Hsleep : Forall (@sleepable day_clock) [2; 4]).
  { repeat constructor; vm_compute; discriminate. }
  split.
  - apply (@retry_contract day_clock nat Z flaky_twice 2 0%nat 3%nat 7 3 2 2
             Hrun Hsleep); lia.
  - apply (@retry_contract day_clock nat Z flaky_twice 2 0%nat 3%nat 7 2 2 2
             Hrun Hsleep); lia.
Defined.

(** C5, as the claim states it, fails: it puts no condition on the delay
    and the multiplier.  [time.sleep] is called in the handler of a failed
    attempt, and what it raises leaves the wrapper.  With a budget of three
    and a negative delay the operation that fails twice is called once and
    the wrapper raises [ValueError] where the claim has it return 7; with a
    budget of one and a delay of 10^30 seconds it raises [OverflowError]
    where the claim has it return [None]. *)
Lemma retry_contract_refuted :
  fails_then_succeeds flaky_twice 2 0%nat 7 3%nat
  /\ @retry day_clock _ _ 3 (-1) 2 flaky_twice 0%nat
     = (Raise ValueError, 1%nat, [])
  /\ @retry day_clock _ _ 1 (10 ^ 30) 2 flaky_twice 0%nat
     = (Raise OverflowError, 1%nat, [])
  /\ ~ (forall (f : nat) (w w_end : nat) (v N D B : Z),
          fails_then_succeeds flaky_twice f w v w_end ->
          (Z.of_nat f + 1 <= N ->
             fst (fst (@retry day_clock _ _ N D B flaky_twice w))
             = Ok (Some v))
          /\ (N <= Z.of_nat f ->
             fst (fst (@retry day_clock _ _ N D B flaky_twice w))
             = Ok None)).
Proof.
  assert (Hrun : fails_then_succeeds flaky_twice 2 0%nat 7 3%nat).
  { cbn. exists RequestException, 1%nat. split; [reflexivity |].
    exists RequestException, 2%nat. split; reflexivity. }
  split; [exact Hrun |]. split; [reflexivity |]. split; [reflexivity |].
  intros Hclaim.
  destruct (Hclaim 2%nat 0%nat 3%nat 7 3 (-1) 2 Hrun) as (Hreturns & _).
  specialize (Hreturns ltac:(lia)). discriminate Hreturns.
Qed.

(** The same on every clock: what [time.sleep] does with a negative delay
    and with one that does not fit is CPython's, not the platform's. *)
Lemma retry_out_of_range `{Clock} :
  retry 3 (-1) 2 flaky_twice 0%nat = (Raise ValueError, 1%nat, [])
  /\ retry 1 (10 ^ 30) 2 flaky_twice 0%nat
     = (Raise OverflowError, 1%nat, []).
Proof.
  unfold retry, wrapper. split.
  - apply wrapper_loop_sleep_raises with (e := RequestException);
      [lia | reflexivity |].
    apply time_sleep_negative. unfold sleep_max. lia.
  - apply wrapper_loop_sleep_raises with (e := RequestException);
      [lia | reflexivity |].
    apply time_sleep_overflow. right. unfold sleep_max. lia.
Qed.

(** ** The classifier *)

Lemma prefix_spec (p s : string) :
  String.prefix p s = true <-> exists t, s = (p ++ t)%string.
Proof.
  revert s. induction p as [| c p IH]; intros s.
  - split; [intros _; exists s; reflexivity | destruct s; reflexivity].
  - destruct s as [| d s]; cbn.
    + split; [discriminate | intros (t & Ht); discriminate].
    + destruct (Ascii.ascii_dec c d) as [-> | Hne].
      * rewrite IH. split; intros (t & Ht); exists t; congruence.
      * split; [discriminate | intros (t & Ht); congruence].
Qed.

Lemma py_in_spec (kw name : string) :
  py_in kw name = true <-> occurs_in kw name.
Proof.
  unfold occurs_in. induction name as [| c name IH]; cbn [py_in].
  - rewrite orb_false_r, prefix_spec. split.
    + intros (t & Ht). exists EmptyString, t. exact Ht.
    + intros (b & a & Hba). destruct b; [| discriminate].
      exists a. exact Hba.
  - rewrite orb_true_iff, prefix_spec, IH. split.
    + intros [(t & Ht) | (b & a & Hba)].
      * exists EmptyString, t. exact Ht.
      * exists (String c b), a. cbn. congruence.
    + intros (b & a & Hba). destruct b as [| c' b]; cbn in Hba.
      * left. exists a. exact Hba.
      * right. exists b, a. congruence.
Qed.

Lemma keywords_loop_spec (keywords : list string) (name : string) :
  keywords_loop keywords name = true
  <-> Exists (fun kw => occurs_in kw name) keywords.
Proof.
  induction keywords as [| kw rest IH]; cbn.
  - split; [discriminate | intros H; inversion H].
  - destruct (py_in kw name) eqn:Hin.
    + split; [| reflexivity]. intros _. left. apply py_in_spec. exact Hin.
    + rewrite IH. split; [intros H; right; exact H |].
      intros H. inversion H as [? ? Hkw | ? ? Hrest]; subst; [| exact Hrest].
      apply py_in_spec in Hkw. congruence.
Qed.

Lemma keywords_loop_none (keywords : list string) (name : string) :
  keywords_loop keywords name = false
  <-> Forall (fun kw => ~ occurs_in kw name) keywords.
Proof.
  split.
  - intros Hloop. apply Forall_Exists_neg. intros Hex.
    apply keywords_loop_spec in Hex. congruence.
  - intros Hall. apply Forall_Exists_neg in Hall.
    destruct (keywords_loop keywords name) eqn:Hloop; [| reflexivity].
    exfalso. apply Hall, keywords_loop_spec, Hloop.
Qed.

Lemma categories_loop_spec (items : list (string * list string))
  (name : string) :
  first_match_or_default items name (categories_loop items name).
Proof.
  induction items as [| [category keywords] rest IH]; cbn [categories_loop].
  - right. split; [constructor | reflexivity].
  - destruct (keywords_loop keywords name) eqn:Hk.
    + left. exists [], keywords, rest. repeat split.
      * constructor.
      * apply keywords_loop_spec. exact Hk.
    + apply keywords_loop_none in Hk.
      destruct IH
        as [(before & kws & after & Heq & Hnone & Hsome) | (Hnone & Hd)].
      * left. exists ((category, keywords) :: before), kws, after.
        repeat split; [cbn; congruence | constructor; assumption | assumption].
      * right. split; [constructor; assumption | assumption].
Qed.

(** The first match is unique: the relation determines the category. *)
Lemma first_match_or_default_loop (items : list (string * list string))
  (name c : string) :
  first_match_or_default items name c -> categories_loop items name = c.
Proof.
  unfold first_match_or_default, no_keyword_in.
  induction items as [| [c0 kws] rest IH]; cbn [categories_loop].
  - intros [(b & k & a & He & _) | (_ & ->)];
      [destruct b; discriminate | reflexivity].
  - intros Hc. destruct (keywords_loop kws name) eqn:Hk.
    + destruct Hc as [(b & k & a & He & Hn & Hs) | (Hn & _)].
      * destruct b as [| x b]; cbn in He; [congruence |].
        injection He as <- _. inversion Hn as [| ? ? Hx _]; subst.
        apply keywords_loop_none in Hx. cbn in Hx. congruence.
      * inversion Hn as [| ? ? Hx _]; subst.
        apply keywords_loop_none in Hx. cbn in Hx. congruence.
    + apply IH. destruct Hc as [(b & k & a & He & Hn & Hs) | (Hn & Hd)].
      * destruct b as [| x b]; cbn in He.
        -- injection He as _ <- _. apply keywords_loop_spec in Hs. congruence.
        -- injection He as _ ->. left. exists b, k, a.
           inversion Hn; subst. repeat split; assumption.
      * right. inversion Hn as [| ? ? _ Hrest]. split; assumption.
Qed.

(** C6. The classifier is a total function of the name: it returns
    "Impurity" for a missing or empty name, and otherwise the first
    category of [category_map], in its written order, that has a keyword
    occurring in the lowercased name, or "Impurity" when no keyword of any
    category occurs; that category is unique and is one of the fixed set. *)
Theorem classifier_first_match `{PyText} (chemical_name : cell) :
  let category := guess_general_category chemical_name in
  (In category (map fst category_map) \/ category = "Impurity")
  /\ (chemical_name = NaN \/ chemical_name = Text "" -> category = "Impurity")
  /\ (forall s, chemical_name = Text s -> s <> "" ->
        first_match_or_default category_map (lower s) category
        /\ forall c, first_match_or_default category_map (lower s) c ->
                     c = category).
Proof.
  cbv zeta. split; [| split].
  - destruct chemical_name as [| [| c s]]; cbn [guess_general_category];
      try (right; reflexivity).
    generalize (categories_loop_spec category_map (lower (String c s))).
    generalize (categories_loop category_map (lower (String c s))).
    intros cat [(b & k & a & He & _) | (_ & Hd)]; [left | right; exact Hd].
    rewrite He, map_app. apply in_or_app. right. left. reflexivity.
  - intros [-> | ->]; reflexivity.
  - intros s -> Hs. destruct s as [| c s]; [congruence |].
    cbn [guess_general_category]. split.
    + apply categories_loop_spec.
    + intros c0 Hc0. symmetry. apply first_match_or_default_loop, Hc0.
Qed.

(** "indole" is a keyword of both "Heterocyclic" and "Aromatic": the
    category written first wins. *)
Example classifier_examples :
  @guess_general_category ascii_text (Text "Indole") = "Heterocyclic"
  /\ @guess_general_category ascii_text (Text "Chlorobenzene") = "Aromatic"
  /\ @guess_general_category ascii_text (Text "Formaldehyde")
     = "Oxygen-Containing"
  /\ @guess_general_category ascii_text (Text "Water") = "Impurity"
  /\ @guess_general_category ascii_text (Text "") = "Impurity"
  /\ @guess_general_category ascii_text NaN = "Impurity".
Proof. repeat split. Qed.

(** ** The PubChem adapter *)

Lemma eq_str_true (v : json) (s : string) :
  eq_str v s = true -> v = JStr s.
Proof.
  destruct v; cbn; try discriminate.
  intros H. apply String.eqb_eq in H. congruence.
Qed.

Lemma bind_Ok {A B} (r : result A) (k : A -> result B) (b : B) :
  bind r k = Ok b -> exists a, r = Ok a /\ k a = Ok b.
Proof.
  destruct r as [a | e]; cbn; [| discriminate].
  intros H. exists a. split; [reflexivity | exact H].
Qed.

Lemma props_step_spec `{PyText} (prop formula weight appearance : json)
  (st' : props_state) :
  props_step (formula, weight, appearance) prop = Ok st' ->
  st' = (or_else (formula_entry prop) formula,
         or_else (weight_entry prop) weight,
         or_else (appearance_entry prop) appearance).
Proof.
  unfold props_step, formula_entry, weight_entry, appearance_entry,
    prop_fields.
  destruct (get prop "urn" (JDict [])) as [urn | e]; cbn [bind];
    [| discriminate].
  destruct (get urn "label" (JStr "")) as [label | e]; cbn [bind];
    [| discriminate].
  destruct (get prop "value" (JDict [])) as [val | e]; cbn [bind];
    [| discriminate].
  destruct (get val "sval" JNull) as [sval | e]; cbn [bind]; [| discriminate].
  destruct (get val "fval" JNull) as [fval | e]; cbn [bind]; [| discriminate].
  destruct (eq_str label "Molecular Formula") eqn:HF.
  - apply eq_str_true in HF. subst label. cbn.
    destruct (truthy sval); cbn; intros [= <-]; reflexivity.
  - destruct (eq_str label "Molecular Weight") eqn:HW.
    + apply eq_str_true in HW. subst label. cbn. intros [= <-]. reflexivity.
    + cbn. destruct (eq_str label "Appearance" && truthy sval);
        cbn; intros [= <-]; reflexivity.
Qed.

Lemma last_match_or_cons (entry : json -> option json) (p : json)
  (rest : list json) (initial v : json) :
  last_match_or entry rest (or_else (entry p) initial) v ->
  last_match_or entry (p :: rest) initial v.
Proof.
  intros [(b & q & a & He & Hq & Ha) | (Hnone & Hv)].
  - left. exists (p :: b), q, a. subst rest. repeat split; assumption.
  - destruct (entry p) as [x |] eqn:Hp; cbn in Hv.
    + left. exists [], p, rest. subst v. repeat split; assumption.
    + right. split; [constructor; assumption | assumption].
Qed.

Lemma props_loop_spec `{PyText} (items : list json) :
  forall formula weight appearance f w a,
    props_loop items (formula, weight, appearance) = Ok (f, w, a) ->
    last_match_or formula_entry items formula f
    /\ last_match_or weight_entry items weight w
    /\ last_match_or appearance_entry items appearance a.
Proof.
  induction items as [| p rest IH]; intros formula weight appearance f w a.
  - cbn. intros [= <- <- <-].
    repeat split; right; (split; [constructor | reflexivity]).
  - cbn [props_loop]. intros Hloop.
    apply bind_Ok in Hloop. destruct Hloop as (st1 & Hstep & Hrest).
    apply props_step_spec in Hstep. subst st1.
    apply IH in Hrest. destruct Hrest as (Hf & Hw & Ha).
    repeat split; apply last_match_or_cons; assumption.
Qed.

(** C2, as the code has it.  When the lookup returns a record, each of its
    three enrichment fields is the contribution of the last contributing
    entry of the compound's property list, in list order (a later entry
    with the same label replaces an earlier one), and is the empty string
    when no entry contributes. *)
Theorem pubchem_last_match_wins `{PyText} (cas : string) (status_code : Z)
  (data : json) (d : SourceRecord) :
  fetch_pubchem_body cas (Response status_code (Some data)) = Ok d ->
  exists items,
    compound_props data = Ok items
    /\ last_match_or formula_entry items (JStr "") (pc_Molecular_Formula d)
    /\ last_match_or weight_entry items (JStr "") (pc_Molecular_Weight d)
    /\ last_match_or appearance_entry items (JStr "") (pc_Appearance d).
Proof.
  unfold fetch_pubchem_body, compound_props.
  destruct (negb (status_code =? 200)); [discriminate |].
  destruct (get data "PC_Compounds" (JList [])) as [compounds | e];
    cbn [bind]; [| discriminate].
  destruct (subscript0 compounds) as [compound | e]; cbn [bind];
    [| discriminate].
  destruct (get compound "id" (JDict [])) as [id_outer | e]; cbn [bind];
    [| discriminate].
  destruct (get id_outer "id" (JDict [])) as [ids | e]; cbn [bind];
    [| discriminate].
  destruct (get ids "name" (JStr cas)) as [name | e]; cbn [bind];
    [| discriminate].
  destruct (get compound "props" (JList [])) as [props | e]; cbn [bind];
    [| discriminate].
  destruct (iter props) as [items | e]; cbn [bind]; [| discriminate].
  destruct (props_loop items (JStr "", JStr "", JStr ""))
    as [[[f w] a] | e] eqn:Hloop; cbn [bind]; [| discriminate].
  intros [= <-]. exists items. split; [reflexivity |].
  cbn. apply props_loop_spec. exact Hloop.
Qed.

Lemma pubchem_last_match_wins_witness :
  exists items,
    compound_props duplicate_formula_payload = Ok items
    /\ last_match_or formula_entry items (JStr "") (JStr "H2CO")
    /\ last_match_or (@weight_entry ascii_text) items (JStr "") (JStr "")
    /\ last_match_or appearance_entry items (JStr "") (JStr "").
Proof.
  apply (@pubchem_last_match_wins ascii_text "50-00-0" 200
           duplicate_formula_payload
           {| pc_Chemical_Name := JStr "formaldehyde";
              pc_Molecular_Formula := JStr "H2CO";
              pc_Molecular_Weight := JStr "";
              pc_Appearance := JStr "" |}).
  reflexivity.
Defined.

(** C2, as the claim states it, fails: with two entries labelled
    "Molecular Formula" the first contributing entry carries "CH2O", and the
    record returned carries the value of the second. *)
Lemma pubchem_first_match_refuted :
  exists d items,
    @fetch_pubchem_body ascii_text "50-00-0"
      (Response 200 (Some duplicate_formula_payload)) = Ok d
    /\ compound_props duplicate_formula_payload = Ok items
    /\ first_match formula_entry items (JStr "CH2O")
    /\ pc_Molecular_Formula d = JStr "H2CO"
    /\ pc_Molecular_Formula d <> JStr "CH2O".
Proof.
  eexists. eexists. split; [reflexivity |]. split; [reflexivity |].
  split; [| split; [reflexivity | discriminate]].
  exists [], (labelled_entry "Molecular Formula" "CH2O"),
    [labelled_entry "Molecular Formula" "H2CO"].
  repeat split. constructor.
Qed.

(** ** The record assembler *)

Lemma fetch_pubchem_returns `{PyText} `{Clock} (net : network) (cas : string) :
  exists found k slept, fetch_pubchem net cas = (Ok found, k, slept).
Proof.
  unfold fetch_pubchem, retry. apply wrapper_never_raises.
  exact lookup_delays_sleepable.
Qed.

Lemma process_row_returns `{PyText} `{Clock} (net : network) (index : Z)
  (cas : string) (chemical_name : cell) :
  exists found k slept,
    fetch_pubchem net cas = (Ok found, k, slept)
    /\ process_row net index cas chemical_name
       = (Ok {| Product_Code := "S1-" ++ zfill 4 (str_int (index + 1));
                Chemical_Name := chemical_name;
                CAS_No := cas;
                Synonyms := chemical_name;
                Molecular_Formula := fst (fst (enrichment found));
                Molecular_Weight := snd (fst (enrichment found));
                Appearance := snd (enrichment found);
                Storage := "2-8°C Refrigerator";
                Shipping_Conditions := "Ambient";
                Applications := generate_applications chemical_name;
                Category := guess_general_category chemical_name |},
          slept).
Proof.
  destruct (fetch_pubchem_returns net cas) as (found & k & slept & Hf).
  exists found, k, slept. split; [exact Hf |].
  unfold process_row. rewrite Hf. cbn [bind].
  destruct found as [d |]; reflexivity.
Qed.

Lemma fetch_pubchem_exhausted `{PyText} `{Clock} (net : network) (cas :
  string) :
  exhausts_retries net cas ->
  fetch_pubchem net cas = (Ok None, 3%nat, [2; 4; 8]).
Proof.
  intros Hfail. unfold exhausts_retries in Hfail.
  unfold fetch_pubchem, retry, wrapper.
  rewrite wrapper_loop_exhausted with (n := 3%nat) (w_end := 3%nat);
    [reflexivity | | exact lookup_delays_sleepable | reflexivity].
  destruct (Hfail 0%nat ltac:(lia)) as (e0 & Hf0).
  destruct (Hfail 1%nat ltac:(lia)) as (e1 & Hf1).
  destruct (Hfail 2%nat ltac:(lia)) as (e2 & Hf2).
  cbn. unfold fetch_pubchem_once.
  exists e0, 1%nat. rewrite Hf0. split; [reflexivity |].
  exists e1, 2%nat. rewrite Hf1. split; [reflexivity |].
  exists e2, 3%nat. rewrite Hf2. split; reflexivity.
Qed.

(** C7, as the code has it.  When all three attempts of the lookup fail,
    [process_row] still returns one record and raises nothing: its chemical
    name and synonyms are the declared name, its CAS number is the
    identifier, formula, weight and appearance are empty, and its category
    is what the classifier gives for the declared name. *)
Theorem soft_failure_record `{PyText} `{Clock} (net : network) (index : Z)
  (cas : string) (chemical_name : cell) :
  exhausts_retries net cas ->
  exists r,
    process_row net index cas chemical_name = (Ok r, [2; 4; 8])
    /\ Chemical_Name r = chemical_name
    /\ Synonyms r = chemical_name
    /\ CAS_No r = cas
    /\ Molecular_Formula r = JStr ""
    /\ Molecular_Weight r = JStr ""
    /\ Appearance r = JStr ""
    /\ Category r = guess_general_category chemical_name.
Proof.
  intros Hfail. apply fetch_pubchem_exhausted in Hfail.
  unfold process_row. rewrite Hfail. cbn [bind].
  eexists. split; [reflexivity |]. cbn. repeat split; reflexivity.
Qed.

Lemma soft_failure_record_witness :
  exists r,
    @process_row ascii_text day_clock unreachable_network 0 "50-00-0"
      (Text "Formaldehyde") = (Ok r, [2; 4; 8])
    /\ Chemical_Name r = Text "Formaldehyde"
    /\ Synonyms r = Text "Formaldehyde"
    /\ CAS_No r = "50-00-0"
    /\ Molecular_Formula r = JStr ""
    /\ Molecular_Weight r = JStr ""
    /\ Appearance r = JStr ""
    /\ Category r = @guess_general_category ascii_text (Text "Formaldehyde").
Proof.
  apply (@soft_failure_record ascii_text day_clock unreachable_network 0
      "50-00-0"
           (Text "Formaldehyde")).
  intros k _. exists RequestException. reflexivity.
Defined.

(** C7, as the claim states it, fails: after three failed attempts the
    record's name is the declared name, not the identifier. *)
Lemma soft_failure_name_refuted :
  (forall k, (k < 3)%nat ->
     @fetch_pubchem_body ascii_text "50-00-0" (unreachable_network k)
     = Raise RequestException)
  /\ exists r,
    fst (@process_row ascii_text day_clock unreachable_network 0 "50-00-0"
           (Text "Formaldehyde")) = Ok r
    /\ Chemical_Name r = Text "Formaldehyde"
    /\ Chemical_Name r <> Text "50-00-0"
    /\ Category r = "Oxygen-Containing".
Proof.
  split; [intros k _; reflexivity |].
  eexists. split; [reflexivity |].
  split; [reflexivity |]. split; [discriminate | reflexivity].
Qed.

(** C10. Every record that [process_row] returns has the declared name in
    both "Chemical Name" and "Synonyms"; and the record depends on the
    lookup only through formula, weight and appearance: two networks whose
    lookups agree on those three give the same record, whatever canonical
    name they return. *)
Theorem canonical_name_unused `{PyText} `{Clock} (net net' : network) (index :
  Z)
  (cas : string) (chemical_name : cell) :
  (exists r, fst (process_row net index cas chemical_name) = Ok r
             /\ Chemical_Name r = chemical_name
             /\ Synonyms r = Chemical_Name r)
  /\ (lookup_enrichment net cas = lookup_enrichment net' cas ->
      fst (process_row net index cas chemical_name)
      = fst (process_row net' index cas chemical_name)).
Proof.
  destruct (process_row_returns net index cas chemical_name)
    as (found & k & slept & Hf & Hrow).
  destruct (process_row_returns net' index cas chemical_name)
    as (found' & k' & slept' & Hf' & Hrow').
  rewrite Hrow, Hrow'. cbn [fst]. split.
  - eexists. split; [reflexivity |]. split; reflexivity.
  - unfold lookup_enrichment. rewrite Hf, Hf'. cbn [bind].
    intros [= Heq]. rewrite Heq. reflexivity.
Qed.

(** Two answers that differ only in the canonical name give one record. *)
Lemma canonical_name_unused_witness :
  let formaldehyde : network :=
    fun _ => Response 200 (Some (compound_with "formaldehyde" [])) in
  let methanal : network :=
    fun _ => Response 200 (Some (compound_with "methanal" [])) in
  @lookup_enrichment ascii_text day_clock formaldehyde "50-00-0"
  = @lookup_enrichment ascii_text day_clock methanal "50-00-0"
  /\ fst (@process_row ascii_text day_clock formaldehyde 0 "50-00-0"
            (Text "Formalin"))
     = fst (@process_row ascii_text day_clock methanal 0 "50-00-0"
              (Text "Formalin")).
Proof.
  cbv zeta. split; [reflexivity |].
  apply canonical_name_unused. reflexivity.
Defined.

(** ** Product codes *)

Lemma uint_of_zeros (k : nat) (t : string) (u : Decimal.uint) :
  NilEmpty.uint_of_string t = Some u ->
  NilEmpty.uint_of_string (zeros k ++ t) = Some (Nat.iter k Decimal.D0 u).
Proof.
  intros Ht. induction k as [| k IH]; cbn; [exact Ht |].
  cbn in IH. rewrite IH. reflexivity.
Qed.

Lemma of_uint_leading_zeros (k : nat) (u : Decimal.uint) :
  Z.of_uint (Nat.iter k Decimal.D0 u) = Z.of_uint u.
Proof. induction k as [| k IH]; cbn; [reflexivity | exact IH]. Qed.

(** The digits of a number: a non-empty text that starts with a digit and
    parses back to the number. *)
Lemma digits_parse (u : Decimal.uint) :
  exists c rest u',
    NilZero.string_of_uint u = String c rest
    /\ NilEmpty.uint_of_string (String c rest) = Some u'
    /\ Z.of_uint u' = Z.of_uint u
    /\ (Ascii.eqb c "-" || Ascii.eqb c "+")%char = false.
Proof.
  assert (Hparse : exists u', NilZero.uint_of_string (NilZero.string_of_uint u)
                              = Some u' /\ Z.of_uint u' = Z.of_uint u).
  { destruct (NilZero.usu_gen u) as [Hu | Hu]; [eauto |].
    exists Decimal.zero. split; [exact Hu |].
    destruct u; try reflexivity;
      rewrite NilZero.usu in Hu by discriminate;
      injection Hu as <-; reflexivity. }
  destruct Hparse as (u' & Hu' & Hval).
  destruct (NilZero.string_of_uint u) as [| c rest]; [discriminate |].
  exists c, rest, u'. repeat split; try assumption.
  cbn in Hu'.
  destruct (NilEmpty.uint_of_string rest) as [d |]; [| discriminate].
  apply uint_of_char_spec in Hu'.
  repeat (destruct Hu' as [(-> & _) | Hu']; [reflexivity |]).
  destruct Hu' as (-> & _). reflexivity.
Qed.

Lemma zfill_parse (width : nat) (n : Z) :
  option_map Z.of_int (NilZero.int_of_string (zfill width (str_int n)))
  = Some n.
Proof.
  unfold str_int. rewrite <- (DecimalZ.of_to n) at 2.
  destruct (Z.to_int n) as [u | u]; cbn [NilZero.string_of_int].
  - destruct (digits_parse u) as (c & rest & u' & Hs & Hp & Hv & Hc).
    rewrite Hs. unfold zfill. rewrite Hc.
    set (k := (width - String.length (String c rest))%nat).
    pose proof (uint_of_zeros k (String c rest) Hp) as Hz.
    assert (Hfirst : exists c' rest',
               (zeros k ++ String c rest)%string = String c' rest'
               /\ (Ascii.eqb c' "-")%char = false).
    { destruct k; cbn; [| eauto].
      exists c, rest. split; [reflexivity |].
      apply orb_false_iff in Hc. apply Hc. }
    destruct Hfirst as (c' & rest' & Hcat & Hc').
    rewrite Hcat in *. unfold NilZero.int_of_string. rewrite Hc'.
    unfold NilZero.uint_of_string. rewrite Hz. cbn.
    f_equal. rewrite of_uint_leading_zeros. exact Hv.
  - destruct (digits_parse u) as (c & rest & u' & Hs & Hp & Hv & Hc).
    rewrite Hs. unfold zfill. cbn [Ascii.eqb Bool.eqb orb].
    set (k := (width - String.length (String "-" (String c rest)))%nat).
    unfold NilZero.int_of_string. cbn [Ascii.eqb Bool.eqb].
    pose proof (uint_of_zeros k (String c rest) Hp) as Hz.
    assert (Hne : exists c' rest',
               (zeros k ++ String c rest)%string = String c' rest').
    { destruct k; cbn; eauto. }
    destruct Hne as (c' & rest' & Hcat). rewrite Hcat in *.
    unfold NilZero.uint_of_string. rewrite Hz. cbn.
    f_equal. rewrite of_uint_leading_zeros. f_equal. exact Hv.
Qed.

Lemma code_number_spec (index : Z) :
  code_number ("S1-" ++ zfill 4 (str_int (index + 1))) = Some (index + 1).
Proof. cbn [append code_number]. apply zfill_parse. Qed.

Lemma zfill_four_digits_upto (bound : Z) :
  forallb (fun k => String.eqb (zfill 4 (str_int (Z.of_nat k)))
                               (four_digits (Z.of_nat k)))
          (seq 0 (Z.to_nat bound)) = true ->
  forall m, 0 <= m < bound -> zfill 4 (str_int m) = four_digits m.
Proof.
  intros Hall m Hm. rewrite forallb_forall in Hall.
  specialize (Hall (Z.to_nat m)).
  rewrite Z2Nat.id in Hall by lia.
  apply String.eqb_eq, Hall, in_seq. lia.
Qed.

Lemma zfill_four_digits (m : Z) :
  0 <= m <= 9999 -> zfill 4 (str_int m) = four_digits m.
Proof.
  intros Hm. apply zfill_four_digits_upto with (bound := 10000); [| lia].
  vm_compute. reflexivity.
Qed.

Lemma string_ltb_trans (a b c : string) :
  (a <? b)%string = true -> (b <? c)%string = true -> (a <? c)%string = true.
Proof.
  unfold String.ltb.
  destruct (String.compare a b) eqn:Hab; try discriminate.
  destruct (String.compare b c) eqn:Hbc; try discriminate.
  intros _ _.
  apply OrderedTypeEx.String_as_OT.cmp_lt in Hab, Hbc.
  pose proof (@OrderedTypeEx.String_as_OT.lt_trans a b c Hab Hbc) as Hac.
  apply OrderedTypeEx.String_as_OT.cmp_lt in Hac.
  unfold OrderedTypeEx.String_as_OT.cmp in Hac. rewrite Hac. reflexivity.
Qed.

Lemma zfill_successor_order (m : Z) :
  0 <= m < 9999 ->
  (zfill 4 (str_int m) <? zfill 4 (str_int (m + 1)))%string = true.
Proof.
  intros Hm.
  assert (Hall : forallb
            (fun k => (zfill 4 (str_int (Z.of_nat k))
                       <? zfill 4 (str_int (Z.of_nat k + 1)))%string)
            (seq 0 (Z.to_nat 9999)) = true) by (vm_compute; reflexivity).
  rewrite forallb_forall in Hall. specialize (Hall (Z.to_nat m)).
  rewrite Z2Nat.id in Hall by lia. apply Hall, in_seq. lia.
Qed.

Lemma zfill_string_order (m : Z) (gap : nat) :
  0 <= m -> m + Z.of_nat gap < 9999 ->
  (zfill 4 (str_int m) <? zfill 4 (str_int (m + Z.of_nat gap + 1)))%string
  = true.
Proof.
  intros Hm. induction gap as [| gap IH]; intros Hbound.
  - rewrite Z.add_0_r. apply zfill_successor_order. lia.
  - eapply string_ltb_trans; [apply IH; lia |].
    replace (m + Z.of_nat (S gap) + 1) with (m + Z.of_nat gap + 1 + 1) by lia.
    apply zfill_successor_order. lia.
Qed.

Lemma prefixed_ltb (p a b : string) :
  ((p ++ a)%string <? (p ++ b)%string)%string = (a <? b)%string.
Proof.
  unfold String.ltb. induction p as [| c p IH]; cbn; [reflexivity |].
  assert (Hc : Ascii.compare c c = Eq).
  { destruct (Ascii.compare c c) eqn:E; [reflexivity | |];
      pose proof (Ascii.compare_antisym c c) as Ha; rewrite E in Ha;
      discriminate. }
  rewrite Hc. exact IH.
Qed.

(** C8. Every record that [process_row] returns has a non-empty product
    code, "S1-" followed by the 1-indexed position ([index + 1]) left-padded
    with zeros to four digits; the code carries that number, so the codes of
    two records are equal only for equal positions and their numbers grow
    with the position; for positions up to 9999 the code is "S1-" and
    exactly four digits, and the codes also grow as strings. *)
Theorem product_code_invariant `{PyText} `{Clock} (net net' : network) (i j : Z)
  (cas cas' : string) (name name' : cell) :
  exists r r',
    fst (process_row net i cas name) = Ok r
    /\ fst (process_row net' j cas' name') = Ok r'
    /\ Product_Code r <> ""
    /\ Product_Code r = ("S1-" ++ zfill 4 (str_int (i + 1)))%string
    /\ code_number (Product_Code r) = Some (i + 1)
    /\ (0 <= i < 9999 ->
        Product_Code r = ("S1-" ++ four_digits (i + 1))%string)
    /\ (Product_Code r = Product_Code r' -> i = j)
    /\ (i < j -> code_lt (Product_Code r) (Product_Code r'))
    /\ (0 <= i < j /\ j < 9999 ->
        (Product_Code r <? Product_Code r')%string = true).
Proof.
  destruct (process_row_returns net i cas name)
    as (found & k & slept & _ & Hrow).
  destruct (process_row_returns net' j cas' name')
    as (found' & k' & slept' & _ & Hrow').
  rewrite Hrow, Hrow'. cbn [fst].
  eexists. eexists. split; [reflexivity |]. split; [reflexivity |].
  cbn [Product_Code].
  split; [discriminate |]. split; [reflexivity |].
  split; [apply code_number_spec |].
  split; [intros Hi; rewrite zfill_four_digits by lia; reflexivity |].
  split; [| split].
  - intros Heq. apply (f_equal code_number) in Heq.
    rewrite !code_number_spec in Heq. injection Heq. lia.
  - intros Hlt. exists (i + 1), (j + 1).
    rewrite !code_number_spec. repeat split. lia.
  - intros (Hi & Hj). rewrite prefixed_ltb.
    replace (j + 1) with (i + 1 + Z.of_nat (Z.to_nat (j - i - 1)) + 1) by lia.
    apply zfill_string_order; lia.
Qed.

(** ** The orchestrator *)

Lemma run_task_returns `{PyText} `{Clock} (nets : Z -> network) (i : Z) (cas :
  string)
  (name : cell) :
  exists r, run_task nets (i, cas, name) = Ok r
            /\ Product_Code r = ("S1-" ++ zfill 4 (str_int (i + 1)))%string
            /\ CAS_No r = cas /\ Chemical_Name r = name.
Proof.
  destruct (process_row_returns (nets i) i cas name)
    as (found & k & slept & _ & Hrow).
  unfold run_task. rewrite Hrow. cbn [fst].
  eexists. split; [reflexivity |]. repeat split.
Qed.

Lemma completed_records `{PyText} `{Clock} (nets : Z -> network) (futures :
  list Task)
  (sched : list nat) :
  exists records,
    as_completed sched (map (run_task nets) futures) = map Ok records.
Proof.
  unfold as_completed. induction sched as [| k sched IH]; cbn [flat_map].
  - exists []. reflexivity.
  - destruct IH as (records & Hrec). rewrite Hrec.
    rewrite nth_error_map.
    destruct (nth_error futures k) as [[[i cas] name] |]; cbn [option_map].
    + destruct (run_task_returns nets i cas name) as (r & Hr & _).
      exists (r :: records). rewrite Hr. reflexivity.
    + exists records. reflexivity.
Qed.

Lemma as_completed_from {F} (l before : list F) :
  flat_map (fun k => match nth_error (before ++ l) k with
                     | Some f => [f]
                     | None => []
                     end)
    (seq (List.length before) (List.length l)) = l.
Proof.
  revert before. induction l as [| x l IH]; intros before; [reflexivity |].
  cbn [List.length seq flat_map].
  rewrite nth_error_app2, Nat.sub_diag by lia. cbn [nth_error app].
  f_equal. specialize (IH (before ++ [x])).
  rewrite <- app_assoc, length_app, Nat.add_1_r in IH. exact IH.
Qed.

(** Every future is yielded once when the schedule is a permutation of the
    submission numbers. *)
Lemma as_completed_permutation {F} (sched : list nat) (l : list F) :
  Permutation sched (seq 0 (List.length l)) ->
  Permutation (as_completed sched l) l.
Proof.
  intros Hperm. unfold as_completed.
  rewrite (Permutation_flat_map _ Hperm).
  pose proof (as_completed_from l []) as Hall. cbn in Hall.
  rewrite Hall. reflexivity.
Qed.

Lemma flush_counts_succ (start K : Z) (n : nat) :
  flush_counts start K (S n)
  = (if (start + 1) mod K =? 0 then [1%nat] else [])
    ++ map S (flush_counts (start + 1) K n).
Proof.
  unfold flush_counts. cbn [seq filter].
  replace (start + Z.of_nat 1) with (start + 1) by lia.
  assert (Hrest : filter (fun c => (start + Z.of_nat c) mod K =? 0) (seq 2 n)
                  = map S (filter (fun c => (start + 1 + Z.of_nat c) mod K =? 0)
                             (seq 1 n))).
  { rewrite <- seq_shift, filter_map_swap. f_equal.
    apply filter_ext. intros c. do 2 f_equal. lia. }
  rewrite Hrest. destruct ((start + 1) mod K =? 0); reflexivity.
Qed.

Lemma mid_run_flushes_shift (start : Z) (seed rest : list OutputRecord)
  (r : OutputRecord) (counts : list nat) :
  mid_run_flushes start seed (r :: rest) (map S counts)
  = mid_run_flushes (start + 1) (seed ++ [r]) rest counts.
Proof.
  unfold mid_run_flushes. rewrite flat_map_concat_map, map_map.
  rewrite flat_map_concat_map. f_equal. apply map_ext. intros c.
  cbn [firstn]. rewrite <- app_assoc. cbn [app].
  do 3 f_equal. lia.
Qed.

Lemma drain_loop_spec (K : Z) (records : list OutputRecord) :
  K <> 0 ->
  forall (start : Z) (st : run_state),
  exists st',
    drain_loop K (start + 1) (map Ok records) st = (Ok tt, st')
    /\ output_data st' = output_data st ++ records
    /\ written st'
       = written st
         ++ mid_run_flushes start (output_data st) records
              (flush_counts start K (List.length records)).
Proof.
  intros HK. induction records as [| r rest IH]; intros start st.
  - exists st. cbn. rewrite !app_nil_r. repeat split.
  - cbn [map drain_loop List.length].
    destruct (K =? 0) eqn:HK0; [apply Z.eqb_eq in HK0; contradiction |].
    rewrite flush_counts_succ.
    unfold mid_run_flushes at 1. rewrite flat_map_app.
    fold (mid_run_flushes start (output_data st) (r :: rest)
            (map S (flush_counts (start + 1) K (List.length rest)))).
    rewrite mid_run_flushes_shift.
    destruct ((start + 1) mod K =? 0).
    + destruct (IH (start + 1)
                  (save_progress (start + 1)
                     (save_output (append_result r st))))
        as (st' & Hrun & Hout & Hwr).
      exists st'. split; [exact Hrun |]. split.
      * rewrite Hout. cbn. rewrite <- app_assoc. reflexivity.
      * rewrite Hwr. cbn. rewrite <- !app_assoc. reflexivity.
    + destruct (IH (start + 1) (append_result r st))
        as (st' & Hrun & Hout & Hwr).
      exists st'. split; [exact Hrun |]. split.
      * rewrite Hout. cbn. rewrite <- app_assoc. reflexivity.
      * rewrite Hwr. cbn. reflexivity.
Qed.

(** C3, as the code has it.  For every run that reaches the drain loop with
    resume point [start] and a non-zero interval [K], and for every
    completion order (every submitted position yielding one record): the
    run ends normally; a mid-run flush (the accumulator so far written, then
    the checkpoint saved) happens exactly after the completions [c] for
    which [start + c] is a multiple of [K], and saves the checkpoint
    [start + c]; the final flush writes the whole accumulator and saves the
    number of identifiers. *)
Theorem periodic_flush `{PyText} `{Clock} (cfg : Config) (input_df : list Row)
  (fs : Files) (nets : Z -> network) (sched : list nat) (start : Z)
  (futures : list Task) :
  submissions cfg input_df fs = Ok (start, futures) ->
  SAVE_EVERY_N_ROWS cfg <> 0 ->
  exists records,
    as_completed sched (map (run_task nets) futures) = map Ok records
    /\ (Permutation sched (seq 0 (List.length futures)) ->
        Permutation (map Ok records) (map (run_task nets) futures))
    /\ let seed := output_data (initial_state fs) in
       let total := Z.of_nat (List.length (cas_list input_df)) in
       main cfg input_df fs nets sched
       = (Ok tt,
          {| PROGRESS_FILE := Some (progress_json total);
             OUTPUT_FILE := Some (seed ++ records) |},
          mid_run_flushes start seed records
            (flush_counts start (SAVE_EVERY_N_ROWS cfg) (List.length records))
          ++ final_flush seed records total).
Proof.
  intros Hsub HK.
  destruct (completed_records nets futures sched) as (records & Hrec).
  exists records. split; [exact Hrec |]. split.
  { intros Hperm. rewrite <- Hrec. apply as_completed_permutation.
    rewrite length_map. exact Hperm. }
  cbv zeta. unfold main. rewrite Hsub, Hrec.
  destruct (drain_loop_spec records HK start (initial_state fs))
    as (st' & Hrun & Hout & Hwr).
  rewrite Hrun. cbn. rewrite Hout, Hwr. cbn.
  rewrite <- app_assoc. reflexivity.
Qed.

(** The scenario of the specification: three identifiers, interval 2,
    completions in submission order. *)
Lemma periodic_flush_witness :
  exists records,
    as_completed [0; 1; 2]%nat
      (map (@run_task ascii_text day_clock offline)
         [(0, "A", Text "Alpha"); (1, "B", Text "Beta");
          (2, "C", Text "Gamma")])
    = map Ok records
    /\ (Permutation [0; 1; 2]%nat (seq 0 3) ->
        Permutation (map Ok records)
          (map (@run_task ascii_text day_clock offline)
             [(0, "A", Text "Alpha"); (1, "B", Text "Beta");
              (2, "C", Text "Gamma")]))
    /\ @main ascii_text day_clock (flush_every 2) abc_table no_files offline
         [0; 1; 2]%nat
       = (Ok tt,
          {| PROGRESS_FILE := Some (progress_json 3);
             OUTPUT_FILE := Some ([] ++ records) |},
          mid_run_flushes 0 [] records
            (flush_counts 0 2 (List.length records))
          ++ final_flush [] records 3).
Proof.
  apply (@periodic_flush ascii_text day_clock (flush_every 2) abc_table no_files
           offline [0; 1; 2]%nat 0
           [(0, "A", Text "Alpha"); (1, "B", Text "Beta");
            (2, "C", Text "Gamma")]).
  - reflexivity.
  - discriminate.
Defined.

Example periodic_flush_scenario :
  @main ascii_text day_clock (flush_every 2) abc_table no_files offline [0; 1;
      2]%nat
  = (Ok tt,
     {| PROGRESS_FILE := Some (progress_json 3);
        OUTPUT_FILE := Some [record_A; record_B; record_C] |},
     [Saved_output [record_A; record_B]; Saved_progress 2;
      Saved_output [record_A; record_B; record_C]; Saved_progress 3]).
Proof. vm_compute. reflexivity. Qed.

(** C3, as the claim states it, fails: a run resumed at checkpoint 1 with
    interval 2 flushes after its first completion (enumeration index 2),
    not after its second. *)
Lemma periodic_flush_from_resume_refuted :
  @submissions ascii_text (flush_every 2) abc_table stopped_after_A
  = Ok (1, [(1, "B", Text "Beta"); (2, "C", Text "Gamma")])
  /\ snd (@main ascii_text day_clock (flush_every 2) abc_table stopped_after_A
      offline
            [0; 1]%nat)
     = [Saved_output [record_A; record_B]; Saved_progress 2;
        Saved_output [record_A; record_B; record_C]; Saved_progress 3]
  /\ flush_counts 1 2 2 = [1%nat]
  /\ flush_counts_from_resume 2 2 = [2%nat]
  /\ snd (@main ascii_text day_clock (flush_every 2) abc_table stopped_after_A
      offline
            [0; 1]%nat)
     <> mid_run_flushes 1 [record_A] [record_B; record_C]
          (flush_counts_from_resume 2 2)
        ++ final_flush [record_A] [record_B; record_C] 3.
Proof.
  split; [vm_compute; reflexivity |].
  split; [vm_compute; reflexivity |].
  split; [reflexivity |]. split; [reflexivity |].
  vm_compute. intros Heq. discriminate Heq.
Qed.

(** C4. With three identifiers and interval 1 there is a completion order
    (B, A, C), whatever the network answers, in which a flush saves a
    checkpoint above a submitted position whose record is not among the
    rows written; a run resumed from the files of that flush submits no
    work for that position. *)
Theorem checkpoint_passes_unfinished_position `{Clock}
  (nets : Z -> network) :
  exists sched,
    Permutation sched [0; 1; 2]%nat
    /\ exists futures before rows checkpoint after i cas name r,
      @submissions ascii_text (flush_every 1) abc_table no_files
      = Ok (0, futures)
      /\ snd (@main ascii_text _ (flush_every 1) abc_table no_files nets
                sched)
         = before ++ Saved_output rows :: Saved_progress checkpoint :: after
      /\ In (i, cas, name) futures
      /\ i < checkpoint
      /\ @run_task ascii_text _ nets (i, cas, name) = Ok r
      /\ ~ In r rows
      /\ exists futures',
        @submissions ascii_text (flush_every 1) abc_table
          {| PROGRESS_FILE := Some (progress_json checkpoint);
             OUTPUT_FILE := Some rows |}
        = Ok (checkpoint, futures')
        /\ ~ In i (map position futures').
Proof.
  exists [1; 0; 2]%nat. split; [apply perm_swap |].
  destruct (@run_task_returns ascii_text _ nets 0 "A" (Text "Alpha"))
    as (rA & HrA & HcA & _).
  destruct (@run_task_returns ascii_text _ nets 1 "B" (Text "Beta"))
    as (rB & HrB & HcB & _).
  destruct (@run_task_returns ascii_text _ nets 2 "C" (Text "Gamma"))
    as (rC & HrC & _).
  exists [(0, "A", Text "Alpha"); (1, "B", Text "Beta");
          (2, "C", Text "Gamma")].
  exists [], [rB], 1,
    [Saved_output [rB; rA]; Saved_progress 2;
     Saved_output [rB; rA; rC]; Saved_progress 3;
     Saved_output [rB; rA; rC]; Saved_progress 3].
  exists 0, "A", (Text "Alpha"), rA.
  split; [reflexivity |]. split.
  - unfold main.
    change (@submissions ascii_text (flush_every 1) abc_table no_files)
      with (@Ok (Z * list Task)
              (0, [(0, "A", Text "Alpha"); (1, "B", Text "Beta");
                   (2, "C", Text "Gamma")])).
    cbn [as_completed map flat_map nth_error app].
    rewrite HrA, HrB, HrC. reflexivity.
  - split; [left; reflexivity |]. split; [lia |]. split; [exact HrA |].
    split.
    + intros [Heq | []]. rewrite <- Heq in HcA. rewrite HcB in HcA.
      vm_compute in HcA. discriminate HcA.
    + exists [(1, "B", Text "Beta"); (2, "C", Text "Gamma")].
      split; [reflexivity |].
      cbn. intros [Hp | [Hp | []]]; discriminate Hp.
Qed.

(** ** Reading the input table and the resume point *)

Lemma cas_list_spec (input_df : list Row) :
  cas_list input_df = flat_map work_items input_df.
Proof.
  unfold cas_list, dropna, work_items.
  induction input_df as [| row rest IH]; [reflexivity |].
  cbn [map filter flat_map]. destruct (row_CAS_No row); cbn.
  - exact IH.
  - f_equal. exact IH.
Qed.

Lemma lookup_name_spec `{PyText} (input_df : list Row) (cas : string) :
  declared_name input_df cas (lookup_name input_df cas).
Proof.
  unfold declared_name.
  induction input_df as [| row rest IH]; cbn [lookup_name].
  - right. split; [constructor | reflexivity].
  - destruct (String.eqb (strip (astype_str (row_CAS_No row))) cas) eqn:Heq.
    + apply String.eqb_eq in Heq. left. exists [], row, rest.
      repeat split; [constructor | exact Heq].
    + apply String.eqb_neq in Heq.
      destruct IH as [(b & r & a & He & Hb & Hr & Hn) | (Hall & Hn)].
      * left. exists (row :: b), r, a. subst rest.
        repeat split; [constructor; assumption | assumption | assumption].
      * right. split; [constructor; assumption | assumption].
Qed.

Lemma submit_loop_spec `{PyText} (input_df : list Row) (items : list string)
  (positions : list Z) :
  forall futures,
    submit_loop input_df items positions = Ok futures ->
    map position futures = positions
    /\ Forall (fun t =>
                 exists item,
                   list_item items (position t) = Ok item
                   /\ snd (fst t) = strip item
                   /\ declared_name input_df (snd (fst t)) (snd t)) futures.
Proof.
  induction positions as [| i rest IH]; intros futures; cbn [submit_loop].
  - intros [= <-]. split; [reflexivity | constructor].
  - intros Hsub. apply bind_Ok in Hsub. destruct Hsub as (item & Hitem & Hsub).
    apply bind_Ok in Hsub. destruct Hsub as (tail & Htail & Hsub).
    injection Hsub as <-. destruct (IH tail Htail) as (Hpos & Hall).
    split; [cbn; f_equal; exact Hpos |].
    constructor; [| exact Hall].
    exists item. cbn. repeat split; [exact Hitem | apply lookup_name_spec].
Qed.

(** C9, as the code has it.  The work list is the CAS column of the table
    that [pd.read_excel] returned without its missing values; [dropna]
    drops nothing else, so a text of blanks stays.  The run submits the
    positions from the resume point to the end of the work list, and the
    task of a position carries the trimmed text of its entry and, as name,
    the declared name of the first row of the table whose trimmed CAS text
    equals it. *)
Theorem identifiers_dropna_and_trim `{PyText} (cfg : Config)
  (input_df : list Row) (fs : Files) (start : Z) (futures : list Task) :
  submissions cfg input_df fs = Ok (start, futures) ->
  cas_list input_df = flat_map work_items input_df
  /\ map position futures
     = py_range start (Z.of_nat (List.length (cas_list input_df)))
  /\ Forall (fun t =>
               exists item,
                 list_item (cas_list input_df) (position t) = Ok item
                 /\ snd (fst t) = strip item
                 /\ declared_name input_df (snd (fst t)) (snd t)) futures.
Proof.
  intros Hsub. split; [apply cas_list_spec |].
  unfold submissions in Hsub.
  apply bind_Ok in Hsub. destruct Hsub as (v & _ & Hsub).
  apply bind_Ok in Hsub. destruct Hsub as (start' & _ & Hsub).
  apply bind_Ok in Hsub. destruct Hsub as (tasks & Hloop & Hsub).
  injection Hsub as <- <-.
  apply submit_loop_spec. exact Hloop.
Qed.

Lemma identifiers_dropna_and_trim_witness :
  cas_list ragged_table = flat_map work_items ragged_table
  /\ map position [(0, "A", Text "Alpha"); (1, "B", Text "Beta");
                   (2, "", Text "Blank")]
     = py_range 0 (Z.of_nat (List.length (cas_list ragged_table)))
  /\ Forall (fun t =>
               exists item,
                 list_item (cas_list ragged_table) (position t) = Ok item
                 /\ snd (fst t) = @strip ascii_text item
                 /\ @declared_name ascii_text ragged_table (snd (fst t))
                      (snd t))
       [(0, "A", Text "Alpha"); (1, "B", Text "Beta"); (2, "", Text "Blank")].
Proof.
  apply (@identifiers_dropna_and_trim ascii_text (flush_every 5) ragged_table
           no_files 0).
  reflexivity.
Defined.

(** C9, as the claim states it, fails for whitespace-only values: a CAS
    cell of blanks only is kept in the work list, and a task with the empty
    identifier is submitted for it. *)
Lemma blank_identifier_kept :
  cas_list ragged_table = ["A"; " B "; "  "]
  /\ (exists item, In item (cas_list ragged_table)
                   /\ @strip ascii_text item = "")
  /\ @submissions ascii_text (flush_every 5) ragged_table no_files
     = Ok (0, [(0, "A", Text "Alpha"); (1, "B", Text "Beta");
               (2, "", Text "Blank")]).
Proof.
  split; [reflexivity |]. split; [| reflexivity].
  exists "  ". split; [right; right; left |]; reflexivity.
Qed.

(** C1 on the code.  When the progress file exists and holds a "last_row",
    that value is the start index, whatever [CUSTOM_START_INDEX] is: with
    the override 2800 and a checkpoint of 1 the run starts at position 1. *)
Theorem checkpoint_beats_override (custom checkpoint K : Z)
  (rows : option (list OutputRecord)) :
  start_index {| CUSTOM_START_INDEX := Some custom; SAVE_EVERY_N_ROWS := K |}
              {| PROGRESS_FILE := Some (progress_json checkpoint);
                 OUTPUT_FILE := rows |}
  = Ok (JInt checkpoint)
  /\ @submissions ascii_text
       {| CUSTOM_START_INDEX := Some 2800; SAVE_EVERY_N_ROWS := 5 |}
       abc_table stopped_after_A
     = Ok (1, [(1, "B", Text "Beta"); (2, "C", Text "Gamma")]).
Proof. split; reflexivity. Qed.

(** The override is used only when the progress file is absent, or has no
    "last_row". *)
Lemma override_without_checkpoint (custom K : Z)
  (rows : option (list OutputRecord)) :
  start_index {| CUSTOM_START_INDEX := Some custom; SAVE_EVERY_N_ROWS := K |}
              {| PROGRESS_FILE := None; OUTPUT_FILE := rows |}
  = Ok (JInt custom)
  /\ start_index
       {| CUSTOM_START_INDEX := Some custom; SAVE_EVERY_N_ROWS := K |}
       {| PROGRESS_FILE := Some (JDict []); OUTPUT_FILE := rows |}
     = Ok (JInt custom).
Proof. split; reflexivity. Qed.

(** * Further properties *)

(** ** The retry decorator: what leaves it, and how often it calls *)

Section RetryBounds.
Context `{Clock} {W A : Type}.
Variable func : W -> result A * W.

(** An exception leaves the loop at a call of [time.sleep]: the delays
    before it were slept, and it is what [time.sleep] raises on the next
    delay of the sequence. *)
Lemma wrapper_loop_raise_inv (n : nat) :
  forall (N B a d : Z) (w w' : W) (sl sl' : list Z) (e : exn),
    n = Z.to_nat (N - a) ->
    wrapper_loop func N B a d w sl = (Raise e, w', sl') ->
    exists k : nat,
      (k < n)%nat
      /\ sl' = sl ++ backoff_delays d B k
      /\ Forall (fun x => time_sleep x = Ok tt) (backoff_delays d B k)
      /\ time_sleep (d * B ^ Z.of_nat k) = Raise e.
Proof.
  induction n as [| n IH]; intros N B a d w w' sl sl' e Hn Hrun.
  - rewrite wrapper_loop_stop in Hrun by lia. discriminate Hrun.
  - destruct (func w) as [[v | e0] w0] eqn:Hf.
    + rewrite wrapper_loop_return with (v := v) (w' := w0) in Hrun
        by (assumption || lia).
      discriminate Hrun.
    + destruct (time_sleep d) as [[] | e1] eqn:Hsleep.
      * rewrite wrapper_loop_slept with (e := e0) (w' := w0) in Hrun
          by (assumption || lia).
        apply IH in Hrun; [| lia].
        destruct Hrun as (k & Hk & Hsl & Hall & Hraise).
        exists (S k). split; [lia |]. cbn [backoff_delays].
        split; [rewrite Hsl, <- app_assoc; reflexivity |].
        split; [constructor; assumption |].
        rewrite Nat2Z.inj_succ, Z.pow_succ_r by lia.
        rewrite Z.mul_assoc. exact Hraise.
      * rewrite wrapper_loop_sleep_raises
          with (e := e0) (e' := e1) (w' := w0) in Hrun
          by (assumption || lia).
        injection Hrun as <- <- <-.
        exists 0%nat. split; [lia |]. cbn. rewrite app_nil_r, Z.mul_1_r.
        split; [reflexivity |]. split; [constructor | exact Hsleep].
Qed.

Lemma wrapper_loop_counts (n : nat) :
  forall (N B a d : Z) (c c' : nat) (w w' : W) (sl sl' : list Z)
         (r : result (option A)),
    n = Z.to_nat (N - a) ->
    wrapper_loop (counting func) N B a d (c, w) sl = (r, (c', w'), sl') ->
    exists fails : nat,
      List.length sl' = (List.length sl + fails)%nat
      /\ (c' <= c + n)%nat
      /\ match r with
         | Ok None => c' = (c + fails)%nat /\ fails = n
         | _ => c' = S (c + fails)
         end.
Proof.
  induction n as [| n IH]; intros N B a d c c' w w' sl sl' r Hn Hrun.
  - rewrite wrapper_loop_stop in Hrun by lia.
    injection Hrun as <- <- <- <-. exists 0%nat.
    repeat split; lia.
  - destruct (func w) as [[v | e0] w0] eqn:Hf.
    + rewrite wrapper_loop_return with (v := v) (w' := (S c, w0)) in Hrun;
        [| lia | unfold counting; cbn; rewrite Hf; reflexivity].
      injection Hrun as <- <- <- <-. exists 0%nat. repeat split; lia.
    + destruct (time_sleep d) as [[] | e1] eqn:Hsleep.
      * rewrite wrapper_loop_slept with (e := e0) (w' := (S c, w0)) in Hrun;
          [| lia | unfold counting; cbn; rewrite Hf; reflexivity
           | exact Hsleep].
        apply IH in Hrun; [| lia].
        destruct Hrun as (fails & Hlen & Hle & Hcase).
        exists (S fails). rewrite length_app in Hlen. cbn in Hlen.
        split; [lia |]. split; [lia |].
        destruct r as [[v |] | e]; lia.
      * rewrite wrapper_loop_sleep_raises
          with (e := e0) (e' := e1) (w' := (S c, w0)) in Hrun;
          [| lia | unfold counting; cbn; rewrite Hf; reflexivity
           | exact Hsleep].
        injection Hrun as <- <- <- <-. exists 0%nat. repeat split; lia.
Qed.
End RetryBounds.

(** What [time.sleep] raises on a delay that CPython itself refuses. *)
Lemma time_sleep_refuses `{Clock} (d : Z) (e : exn) :
  time_sleep d = Raise e ->
  ~ sleepable d
  /\ (- sleep_max <= d < 0 -> e = ValueError)
  /\ (d < - sleep_max \/ sleep_max < d -> e = OverflowError).
Proof.
  intros Hraise. split; [| split].
  - intros Hd. apply time_sleep_sleeps in Hd. congruence.
  - intros Hd. apply time_sleep_negative in Hd. congruence.
  - intros Hd. apply time_sleep_overflow in Hd. congruence.
Qed.

(** X1. Whatever the operation raises stays inside the wrapper: an
    exception that leaves [retry] is raised by [time.sleep], in the handler
    of a failed attempt.  With [k] delays slept before it, these are [D],
    [D*B], ..., [D*B^(k-1)], there were attempts left ([k] is below the
    budget), and the exception is what [time.sleep] raises on the next
    delay [D*B^k]: that delay is not one the platform is known to sleep,
    the exception is [ValueError] when it is negative (and fits), and
    [OverflowError] when it does not fit the 64-bit count of nanoseconds. *)
Theorem retry_raises_only_from_sleep `{Clock} {W A : Type}
  (func : W -> result A * W) (N D B : Z) (w w' : W) (slept : list Z)
  (e : exn) :
  retry N D B func w = (Raise e, w', slept) ->
  0 < N
  /\ (List.length slept < Z.to_nat N)%nat
  /\ slept = backoff_delays D B (List.length slept)
  /\ Forall (fun x => time_sleep x = Ok tt) slept
  /\ time_sleep (D * B ^ Z.of_nat (List.length slept)) = Raise e
  /\ ~ sleepable (D * B ^ Z.of_nat (List.length slept))
  /\ (- sleep_max <= D * B ^ Z.of_nat (List.length slept) < 0 ->
      e = ValueError)
  /\ (D * B ^ Z.of_nat (List.length slept) < - sleep_max
      \/ sleep_max < D * B ^ Z.of_nat (List.length slept) ->
      e = OverflowError).
Proof.
  intros Hrun. unfold retry, wrapper in Hrun.
  apply wrapper_loop_raise_inv with (n := Z.to_nat (N - 0)) in Hrun;
    [| reflexivity].
  destruct Hrun as (k & Hk & Hsl & Hall & Hraise). cbn [app] in Hsl.
  assert (Hlen : List.length slept = k)
    by (rewrite Hsl; apply backoff_delays_length).
  rewrite Hlen. rewrite Z.sub_0_r in Hk.
  split; [lia |]. split; [exact Hk |]. split; [exact Hsl |].
  split; [rewrite Hsl; exact Hall |]. split; [exact Hraise |].
  apply time_sleep_refuses. exact Hraise.
Qed.

(** Delay 2 and multiplier -1: the first delay is slept, the second is
    negative. *)
Lemma retry_raises_only_from_sleep_witness :
  0 < 3
  /\ (List.length [2] < Z.to_nat 3)%nat
  /\ [2] = backoff_delays 2 (-1) (List.length [2])
  /\ Forall (fun x => @time_sleep day_clock x = Ok tt) [2]
  /\ @time_sleep day_clock (2 * (-1) ^ Z.of_nat (List.length [2]))
     = Raise ValueError
  /\ ~ @sleepable day_clock (2 * (-1) ^ Z.of_nat (List.length [2]))
  /\ (- sleep_max <= 2 * (-1) ^ Z.of_nat (List.length [2]) < 0 ->
      ValueError = ValueError)
  /\ (2 * (-1) ^ Z.of_nat (List.length [2]) < - sleep_max
      \/ sleep_max < 2 * (-1) ^ Z.of_nat (List.length [2]) ->
      ValueError = OverflowError).
Proof.
  apply (@retry_raises_only_from_sleep day_clock nat Z flaky_twice 3 2 (-1)
           0%nat 2%nat [2] ValueError).
  reflexivity.
Defined.

(** X2. With a budget of zero or less the operation is not called at all:
    the wrapper returns [None] at once, the world untouched and nothing
    slept. *)
Theorem retry_without_budget `{Clock} {W A : Type} (func : W -> result A * W)
  (N D B : Z) (w : W) :
  N <= 0 -> retry N D B func w = (Ok None, w, []).
Proof.
  intros HN. unfold retry, wrapper. apply wrapper_loop_stop. lia.
Qed.

Lemma retry_without_budget_witness :
  @retry day_clock _ _ 0 2 2 flaky_twice 5%nat = (Ok None, 5%nat, []).
Proof. apply retry_without_budget. lia. Defined.

(** X3. The operation is called at most [max_attempts] times, and the
    wrapper sleeps once after every failed call: a returned value or an
    exception of [time.sleep] ends the run one call after the last sleep,
    and [None] is returned after exactly [max_attempts] calls, each followed
    by a sleep (the last one included). *)
Theorem retry_attempts_bounded `{Clock} {W A : Type} (func : W -> result A * W)
  (N D B : Z) (w w' : W) (calls : nat) (slept : list Z)
  (r : result (option A)) :
  retry N D B (counting func) (0%nat, w) = (r, (calls, w'), slept) ->
  (calls <= Z.to_nat N)%nat
  /\ match r with
     | Ok None => calls = List.length slept /\ calls = Z.to_nat N
     | _ => calls = S (List.length slept)
     end.
Proof.
  intros Hrun. unfold retry, wrapper in Hrun.
  apply wrapper_loop_counts with (n := Z.to_nat (N - 0)) in Hrun;
    [| reflexivity].
  destruct Hrun as (fails & Hlen & Hle & Hcase). cbn in Hlen.
  rewrite Z.sub_0_r in *. split; [lia |].
  destruct r as [[v |] | e]; lia.
Qed.

Lemma retry_attempts_bounded_witness :
  (3 <= Z.to_nat 3)%nat /\ 3%nat = S (List.length [2; 4]).
Proof.
  apply (@retry_attempts_bounded day_clock nat Z flaky_twice 3 2 2 0%nat 3%nat
      3%nat
           [2; 4] (Ok (Some 7))).
  reflexivity.
Defined.

(** ** The classifier: precedence and dead keywords *)

Lemma categories_loop_precedence (name kw category : string)
  (keywords : list string) (after : list (string * list string)) :
  In kw keywords -> occurs_in kw name ->
  forall before,
    In (categories_loop (before ++ (category, keywords) :: after) name)
       (map fst before ++ [category]).
Proof.
  intros Hin Hocc.
  assert (Hloop : keywords_loop keywords name = true).
  { apply keywords_loop_spec, Exists_exists. exists kw. split; assumption. }
  induction before as [| [c0 k0] before IH]; cbn [app categories_loop map fst].
  - rewrite Hloop. left. reflexivity.
  - destruct (keywords_loop k0 name); [left; reflexivity | right; exact IH].
Qed.

(** X4. A name in whose lowercase form a keyword of some category occurs is
    never classified "Impurity": its category is that category or one
    written before it in [category_map]. *)
Theorem classifier_precedence `{PyText} (s kw category : string)
  (keywords : list string) (before after : list (string * list string)) :
  category_map = before ++ (category, keywords) :: after ->
  In kw keywords -> occurs_in kw (lower s) -> s <> "" ->
  guess_general_category (Text s) <> "Impurity"
  /\ In (guess_general_category (Text s)) (map fst before ++ [category]).
Proof.
  intros Hmap Hin Hocc Hs.
  assert (Hres : In (guess_general_category (Text s))
                    (map fst before ++ [category])).
  { destruct s as [| c s]; [congruence |]. cbn [guess_general_category].
    rewrite Hmap. apply categories_loop_precedence with (kw := kw); assumption. }
  split; [| exact Hres].
  assert (Hall : In (guess_general_category (Text s)) (map fst category_map)).
  { rewrite Hmap, map_app. cbn [map fst].
    apply in_app_or in Hres. apply in_or_app.
    destruct Hres as [Hb | [Hc | []]]; [left; exact Hb | right; left; exact Hc]. }
  intros Heq. rewrite Heq in Hall. cbn in Hall.
  repeat (destruct Hall as [Hall | Hall]; [discriminate Hall |]).
  exact Hall.
Qed.

Lemma classifier_precedence_witness :
  @guess_general_category ascii_text (Text "2-Chloropyridine") <> "Impurity"
  /\ In (@guess_general_category ascii_text (Text "2-Chloropyridine"))
        (map fst (firstn 3 category_map) ++ ["Halogenated"]).
Proof.
  apply (@classifier_precedence ascii_text "2-Chloropyridine" "chloro"
           "Halogenated" ["chloro"; "fluoro"; "bromo"; "iodo"; "halide"]
           (firstn 3 category_map) (skipn 4 category_map)).
  - reflexivity.
  - left. reflexivity.
  - exists "2-", "pyridine". reflexivity.
  - discriminate.
Defined.

Lemma occurs_in_trans (a b c : string) :
  occurs_in a b -> occurs_in b c -> occurs_in a c.
Proof.
  intros (p & q & ->) (p' & q' & ->).
  exists (p' ++ p)%string, (q ++ q')%string.
  assert (Hassoc : forall x y z : string,
             ((x ++ y) ++ z)%string = (x ++ y ++ z)%string).
  { intros x y z. induction x as [| ch x IHx]; cbn; [| rewrite IHx];
      reflexivity. }
  rewrite !Hassoc. reflexivity.
Qed.

Lemma py_in_implied (a b name : string) :
  py_in a b = true -> py_in b name = true -> py_in a name = true.
Proof.
  intros Hab Hbn. apply py_in_spec.
  apply occurs_in_trans with (b := b); apply py_in_spec; assumption.
Qed.

(** X5. Six keywords of [category_map] are dead: "indole" under Aromatic and
    "thiazole" under Sulfur-Containing are already keywords of Heterocyclic,
    and "isoquinoline", "methyl", "thiol" and "corticosteroid" contain
    another keyword of their own category.  For every name the loops give
    the same category without them. *)
Theorem classifier_dead_keywords (name : string) :
  categories_loop category_map name
  = categories_loop category_map_pruned name.
Proof.
  pose proof (@py_in_implied "quinoline" "isoquinoline" name eq_refl) as H1.
  pose proof (@py_in_implied "ethyl" "methyl" name eq_refl) as H2.
  pose proof (@py_in_implied "thio" "thiol" name eq_refl) as H3.
  pose proof (@py_in_implied "steroid" "corticosteroid" name eq_refl) as H4.
  unfold category_map, category_map_pruned.
  cbn [categories_loop keywords_loop].
  repeat match goal with
         | |- context [py_in ?k name] =>
             let E := fresh "E" in
             destruct (py_in k name) eqn:E;
             try (rewrite H1 by assumption);
             try (rewrite H2 by assumption);
             try (rewrite H3 by assumption);
             try (rewrite H4 by assumption);
             try reflexivity;
             try (exfalso; intuition congruence)
         end.
Qed.

(** ** The PubChem adapter: what success needs, and what it returns *)

Lemma pubchem_ok_shape `{PyText} (cas : string) (res : http_outcome)
  (d : SourceRecord) :
  fetch_pubchem_body cas res = Ok d ->
  exists fields compound rest,
    res = Response 200 (Some (JDict fields))
    /\ assoc "PC_Compounds" fields = Some (JList (JDict compound :: rest)).
Proof.
  unfold fetch_pubchem_body.
  destruct res as [| status_code [data |]]; try discriminate.
  - destruct (status_code =? 200) eqn:Hs; cbn [negb]; [| discriminate].
    apply Z.eqb_eq in Hs. subst status_code.
    destruct data as [| | | | | | fields]; try discriminate.
    cbn [get bind].
    destruct (assoc "PC_Compounds" fields) as [compounds |] eqn:Hc;
      [| discriminate].
    destruct compounds as [| | | | s | l |]; try discriminate.
    + destruct s; discriminate.
    + destruct l as [| compound rest]; [discriminate |].
      cbn [subscript0 bind].
      destruct compound as [| | | | | | c]; try discriminate.
      intros _. exists fields, c, rest. split; [reflexivity | exact Hc].
  - destruct (negb (status_code =? 200)); discriminate.
Qed.

(** X6. The lookup body returns a record only for a response with status
    200 whose body is a JSON object with a "PC_Compounds" list that starts
    with an object; every other outcome of the request raises. *)
Theorem pubchem_success_requires `{PyText} (cas : string) (res : http_outcome)
  (d : SourceRecord) :
  fetch_pubchem_body cas res = Ok d ->
  exists fields compound rest,
    res = Response 200 (Some (JDict fields))
    /\ assoc "PC_Compounds" fields = Some (JList (JDict compound :: rest)).
Proof. apply pubchem_ok_shape. Qed.

Lemma pubchem_success_requires_witness :
  exists fields compound rest,
    Response 200 (Some duplicate_formula_payload)
    = Response 200 (Some (JDict fields))
    /\ assoc "PC_Compounds" fields = Some (JList (JDict compound :: rest)).
Proof.
  apply (@pubchem_success_requires ascii_text "50-00-0"
           (Response 200 (Some duplicate_formula_payload))
           {| pc_Chemical_Name := JStr "formaldehyde";
              pc_Molecular_Formula := JStr "H2CO";
              pc_Molecular_Weight := JStr "";
              pc_Appearance := JStr "" |}).
  reflexivity.
Defined.

Lemma fetch_pubchem_body_inv `{PyText} (cas : string)
  (fields compound : list (string * json)) (rest : list json)
  (d : SourceRecord) :
  assoc "PC_Compounds" fields = Some (JList (JDict compound :: rest)) ->
  fetch_pubchem_body cas (Response 200 (Some (JDict fields))) = Ok d ->
  exists items,
    compound_props (JDict fields) = Ok items
    /\ props_loop items (JStr "", JStr "", JStr "")
       = Ok (pc_Molecular_Formula d, pc_Molecular_Weight d, pc_Appearance d)
    /\ pc_Chemical_Name d
       = match canonical_name compound with
         | Some v => v
         | None => JStr cas
         end.
Proof.
  intros Hc. unfold fetch_pubchem_body, compound_props, canonical_name.
  cbn [Z.eqb Pos.eqb negb get bind]. rewrite Hc. cbn [subscript0 bind get].
  assert (Hend : forall name,
    (items <- iter match assoc "props" compound with
                   | Some x => x
                   | None => JList []
                   end ;;
     st <- props_loop items (JStr "", JStr "", JStr "") ;;
     (let '(formula, weight, appearance) := st in
      Ok {| pc_Chemical_Name := name;
            pc_Molecular_Formula := formula;
            pc_Molecular_Weight := weight;
            pc_Appearance := appearance |})) = Ok d ->
    exists items,
      iter match assoc "props" compound with
           | Some x => x
           | None => JList []
           end = Ok items
      /\ props_loop items (JStr "", JStr "", JStr "")
         = Ok (pc_Molecular_Formula d, pc_Molecular_Weight d,
               pc_Appearance d)
      /\ pc_Chemical_Name d = name).
  { intros name Hrun.
    destruct (iter _) as [items | e]; cbn [bind] in Hrun; [| discriminate].
    destruct (props_loop items _) as [[[f w] a] | e] eqn:Hloop;
      cbn [bind] in Hrun; [| discriminate].
    injection Hrun as <-. exists items.
    split; [reflexivity | split; [exact Hloop | reflexivity]]. }
  destruct (assoc "id" compound) as [id_outer |]; cbn [bind get];
    [| apply Hend].
  destruct id_outer as [| | | | | | io]; try discriminate. cbn [get bind].
  destruct (assoc "id" io) as [ids |]; cbn [bind get]; [| apply Hend].
  destruct ids as [| | | | | | ii]; try discriminate. cbn [get bind].
  intros Hrun. apply Hend in Hrun. destruct (assoc "name" ii); exact Hrun.
Qed.

(** X7. Missing keys are defaulted, not errors: when the lookup returns a
    record, its name is the identifier unless the compound has a value at
    id.id.name, and all three enrichment fields are empty when the compound
    has no "props". *)
Theorem pubchem_missing_keys `{PyText} (cas : string)
  (fields compound : list (string * json)) (rest : list json)
  (d : SourceRecord) :
  assoc "PC_Compounds" fields = Some (JList (JDict compound :: rest)) ->
  fetch_pubchem_body cas (Response 200 (Some (JDict fields))) = Ok d ->
  (canonical_name compound = None -> pc_Chemical_Name d = JStr cas)
  /\ (assoc "props" compound = None ->
      pc_Molecular_Formula d = JStr "" /\ pc_Molecular_Weight d = JStr ""
      /\ pc_Appearance d = JStr "").
Proof.
  intros Hc Hrun.
  destruct (@fetch_pubchem_body_inv _ _ _ _ _ _ Hc Hrun) as (items & Hitems & Hloop & Hn).
  split.
  - intros Hnone. rewrite Hnone in Hn. exact Hn.
  - intros Hprops. unfold compound_props in Hitems.
    cbn [get bind] in Hitems. rewrite Hc in Hitems.
    cbn [subscript0 bind get] in Hitems. rewrite Hprops in Hitems.
    cbn in Hitems. injection Hitems as <-. cbn in Hloop.
    injection Hloop as <- <- <-. repeat split.
Qed.

Lemma pubchem_missing_keys_witness :
  (canonical_name [("id", JDict [("id", JDict [("cid", JInt 712)])])] = None ->
   JStr "50-00-0" = JStr "50-00-0")
  /\ (assoc "props" [("id", JDict [("id", JDict [("cid", JInt 712)])])] = None ->
      JStr "" = JStr "" /\ JStr "" = JStr "" /\ JStr "" = JStr "").
Proof.
  apply (@pubchem_missing_keys ascii_text "50-00-0"
           [("PC_Compounds",
             JList [JDict [("id", JDict [("id", JDict [("cid", JInt 712)])])]])]
           [("id", JDict [("id", JDict [("cid", JInt 712)])])] []
           {| pc_Chemical_Name := JStr "50-00-0";
              pc_Molecular_Formula := JStr "";
              pc_Molecular_Weight := JStr "";
              pc_Appearance := JStr "" |}).
  - reflexivity.
  - reflexivity.
Defined.

Lemma formula_entry_truthy (p v : json) :
  formula_entry p = Some v -> truthy v = true.
Proof.
  unfold formula_entry.
  destruct (prop_fields p) as [[[label sval] fval] | e]; [| discriminate].
  destruct (eq_str label "Molecular Formula"); cbn; [| discriminate].
  destruct (truthy sval) eqn:Ht; [| discriminate].
  intros [= <-]. exact Ht.
Qed.

Lemma appearance_entry_truthy (p v : json) :
  appearance_entry p = Some v -> truthy v = true.
Proof.
  unfold appearance_entry.
  destruct (prop_fields p) as [[[label sval] fval] | e]; [| discriminate].
  destruct (eq_str label "Appearance"); cbn; [| discriminate].
  destruct (truthy sval) eqn:Ht; [| discriminate].
  intros [= <-]. exact Ht.
Qed.

Lemma weight_entry_shape `{PyText} (p v : json) :
  weight_entry p = Some v ->
  truthy v = true \/ exists fval, v = JStr (str_json fval).
Proof.
  unfold weight_entry.
  destruct (prop_fields p) as [[[label sval] fval] | e]; [| discriminate].
  destruct (eq_str label "Molecular Weight"); [| discriminate].
  destruct (truthy sval) eqn:Ht; intros [= <-];
    [left; exact Ht | right; exists fval; reflexivity].
Qed.

Lemma last_match_or_cases (entry : json -> option json) (items : list json)
  (initial v : json) :
  last_match_or entry items initial v ->
  v = initial \/ exists p, In p items /\ entry p = Some v.
Proof.
  intros [(b & p & a & -> & Hp & _) | (_ & ->)]; [right | left; reflexivity].
  exists p. split; [apply in_or_app; right; left; reflexivity | exact Hp].
Qed.

(** X8. The enrichment fields of a returned record are never a null, zero,
    false or empty container: formula and appearance are the empty string or
    a truthy value of an entry, and the weight is the empty string, a truthy
    string value, or the text of [str] applied to the entry's numeric
    value. *)
Theorem pubchem_fields_truthy_or_empty `{PyText} (cas : string)
  (res : http_outcome) (d : SourceRecord) :
  fetch_pubchem_body cas res = Ok d ->
  (pc_Molecular_Formula d = JStr "" \/ truthy (pc_Molecular_Formula d) = true)
  /\ (pc_Appearance d = JStr "" \/ truthy (pc_Appearance d) = true)
  /\ (pc_Molecular_Weight d = JStr ""
      \/ truthy (pc_Molecular_Weight d) = true
      \/ exists fval, pc_Molecular_Weight d = JStr (str_json fval)).
Proof.
  intros Hrun.
  destruct (@pubchem_ok_shape _ _ _ _ Hrun) as (fields & c & rest & -> & Hc).
  destruct (@fetch_pubchem_body_inv _ _ _ _ _ _ Hc Hrun) as (items & _ & Hloop & _).
  apply props_loop_spec in Hloop. destruct Hloop as (Hf & Hw & Ha).
  apply last_match_or_cases in Hf, Hw, Ha.
  split; [| split].
  - destruct Hf as [Hf | (p & _ & Hp)]; [left; exact Hf |].
    right. apply formula_entry_truthy with (p := p). exact Hp.
  - destruct Ha as [Ha | (p & _ & Hp)]; [left; exact Ha |].
    right. apply appearance_entry_truthy with (p := p). exact Hp.
  - destruct Hw as [Hw | (p & _ & Hp)]; [left; exact Hw |].
    right. apply weight_entry_shape with (p := p). exact Hp.
Qed.

Lemma pubchem_fields_truthy_or_empty_witness :
  (JStr "H2CO" = JStr "" \/ truthy (JStr "H2CO") = true)
  /\ (JStr "" = JStr "" \/ truthy (JStr "") = true)
  /\ (JStr "" = JStr ""
      \/ truthy (JStr "") = true
      \/ exists fval, JStr "" = JStr (@str_json ascii_text fval)).
Proof.
  apply (@pubchem_fields_truthy_or_empty ascii_text "50-00-0"
           (Response 200 (Some duplicate_formula_payload))
           {| pc_Chemical_Name := JStr "formaldehyde";
              pc_Molecular_Formula := JStr "H2CO";
              pc_Molecular_Weight := JStr "";
              pc_Appearance := JStr "" |}).
  reflexivity.
Defined.

Lemma get_raises (v : json) (key : string) (default : json) (e : exn) :
  get v key default = Raise e -> e = AttributeError.
Proof. destruct v; cbn; congruence. Qed.

Lemma props_step_raises `{PyText} (st : props_state) (prop : json) (e : exn) :
  props_step st prop = Raise e -> e = AttributeError.
Proof.
  destruct st as [[formula weight] appearance]. unfold props_step.
  destruct (get prop "urn" (JDict [])) as [urn | e0] eqn:H1; cbn [bind];
    [| intros [= <-]; eapply get_raises; exact H1].
  destruct (get urn "label" (JStr "")) as [label | e0] eqn:H2; cbn [bind];
    [| intros [= <-]; eapply get_raises; exact H2].
  destruct (get prop "value" (JDict [])) as [val | e0] eqn:H3; cbn [bind];
    [| intros [= <-]; eapply get_raises; exact H3].
  destruct (get val "sval" JNull) as [sval | e0] eqn:H4; cbn [bind];
    [| intros [= <-]; eapply get_raises; exact H4].
  destruct (get val "fval" JNull) as [fval | e0] eqn:H5; cbn [bind];
    [| intros [= <-]; eapply get_raises; exact H5].
  destruct (eq_str label "Molecular Formula" && truthy sval);
    [discriminate |].
  destruct (eq_str label "Molecular Weight"); [discriminate |].
  destruct (eq_str label "Appearance" && truthy sval); discriminate.
Qed.

Lemma props_loop_non_dict `{PyText} (items : list json) :
  Exists (fun p => is_dict p = false) items ->
  forall st, props_loop items st = Raise AttributeError.
Proof.
  induction 1 as [p rest Hp | p rest _ IH]; intros st; cbn [props_loop].
  - destruct st as [[formula weight] appearance].
    destruct p; try discriminate Hp; reflexivity.
  - destruct (props_step st p) as [st' | e] eqn:Hstep; cbn [bind].
    + apply IH.
    + apply props_step_raises in Hstep. subst e. reflexivity.
Qed.

(** X9. One property entry that is not a JSON object makes the whole lookup
    body fail with [AttributeError], whatever the other entries hold: no
    partial record is returned. *)
Theorem pubchem_malformed_entry_fails `{PyText} (cas : string) (data : json)
  (items : list json) :
  compound_props data = Ok items ->
  Exists (fun p => is_dict p = false) items ->
  fetch_pubchem_body cas (Response 200 (Some data)) = Raise AttributeError.
Proof.
  unfold compound_props, fetch_pubchem_body. cbn [Z.eqb Pos.eqb negb].
  destruct (get data "PC_Compounds" (JList [])) as [compounds | e];
    cbn [bind]; [| discriminate].
  destruct (subscript0 compounds) as [compound | e]; cbn [bind];
    [| discriminate].
  destruct compound as [| | | | | | c]; try discriminate. cbn [get bind].
  intros Hiter Hbad.
  destruct (match assoc "id" c with Some x => x | None => JDict [] end)
    as [| | | | | | io]; try reflexivity. cbn [get bind].
  destruct (match assoc "id" io with Some x => x | None => JDict [] end)
    as [| | | | | | ii]; try reflexivity. cbn [get bind].
  rewrite Hiter. cbn [bind].
  rewrite (props_loop_non_dict Hbad). reflexivity.
Qed.

Lemma pubchem_malformed_entry_fails_witness :
  @fetch_pubchem_body ascii_text "50-00-0"
    (Response 200 (Some broken_entry_payload)) = Raise AttributeError.
Proof.
  apply (@pubchem_malformed_entry_fails ascii_text "50-00-0"
           broken_entry_payload
           [labelled_entry "Molecular Formula" "CH2O"; JNull]).
  - reflexivity.
  - right. left. reflexivity.
Defined.

(** ** The decorated lookup and the record assembler *)

Lemma fails_then_succeeds_from `{PyText} (net : network) (cas : string)
  (d : SourceRecord) (k : nat) :
  forall w0 : nat,
    (forall j, (j < k)%nat ->
       exists e, fetch_pubchem_body cas (net (w0 + j)%nat) = Raise e) ->
    fetch_pubchem_body cas (net (w0 + k)%nat) = Ok d ->
    fails_then_succeeds (fetch_pubchem_once net cas) k w0 d (S (w0 + k)).
Proof.
  induction k as [| k IH]; intros w0 Hfail Hok; cbn [fails_then_succeeds].
  - unfold fetch_pubchem_once. rewrite Nat.add_0_r in *. rewrite Hok.
    reflexivity.
  - destruct (Hfail 0%nat ltac:(lia)) as (e & He).
    rewrite Nat.add_0_r in He.
    exists e, (S w0). split.
    + unfold fetch_pubchem_once. rewrite He. reflexivity.
    + replace (S (w0 + S k)) with (S (S w0 + k)) by lia. apply IH.
      * intros j Hj. replace (S w0 + j)%nat with (w0 + S j)%nat by lia.
        apply Hfail. lia.
      * replace (S w0 + k)%nat with (w0 + S k)%nat by lia. exact Hok.
Qed.

Lemma fetch_pubchem_first `{PyText} `{Clock} (net : network) (cas : string)
  (k : nat) (d : SourceRecord) :
  first_success net cas k d -> (k < 3)%nat ->
  fetch_pubchem net cas = (Ok (Some d), S k, backoff_delays 2 2 k).
Proof.
  intros (Hfail & Hok) Hk. unfold fetch_pubchem, retry, wrapper.
  rewrite wrapper_loop_succeeds with (f := k) (w_end := S k) (v := d);
    [reflexivity | | | lia].
  - apply fails_then_succeeds_from; assumption.
  - apply sleepable_prefix with (n := 3%nat); [lia |].
    exact lookup_delays_sleepable.
Qed.

Lemma lookup_cases `{PyText} (net : network) (cas : string) :
  (exists k d, (k < 3)%nat /\ first_success net cas k d)
  \/ exhausts_retries net cas.
Proof.
  unfold first_success, exhausts_retries.
  destruct (fetch_pubchem_body cas (net 0%nat)) as [d0 | e0] eqn:H0.
  { left. exists 0%nat, d0. repeat split; [lia | intros j Hj; lia | exact H0]. }
  destruct (fetch_pubchem_body cas (net 1%nat)) as [d1 | e1] eqn:H1.
  { left. exists 1%nat, d1. repeat split; [lia | | exact H1].
    intros j Hj. assert (j = 0%nat) as -> by lia. eauto. }
  destruct (fetch_pubchem_body cas (net 2%nat)) as [d2 | e2] eqn:H2.
  { left. exists 2%nat, d2. repeat split; [lia | | exact H2].
    intros j Hj. destruct j as [| [| j]]; [eauto | eauto | lia]. }
  right. intros j Hj. destruct j as [| [| [| j]]]; [eauto | eauto | eauto | lia].
Qed.

(** X10. The record of the first attempt that succeeds, among the three, is
    the one used: the lookup stops there ([k + 1] requests, delays 2, 4, ...
    slept only after the [k] failures), and [process_row] copies that
    record's formula, weight and appearance into the output record. *)
Theorem lookup_enriches_record `{PyText} `{Clock} (net : network) (index : Z)
  (cas : string) (chemical_name : cell) (k : nat) (d : SourceRecord) :
  first_success net cas k d -> (k < 3)%nat ->
  fetch_pubchem net cas = (Ok (Some d), S k, backoff_delays 2 2 k)
  /\ exists r,
    process_row net index cas chemical_name = (Ok r, backoff_delays 2 2 k)
    /\ Molecular_Formula r = pc_Molecular_Formula d
    /\ Molecular_Weight r = pc_Molecular_Weight d
    /\ Appearance r = pc_Appearance d.
Proof.
  intros Hfirst Hk.
  pose proof (fetch_pubchem_first Hfirst Hk) as Hfetch.
  split; [exact Hfetch |].
  unfold process_row. rewrite Hfetch. cbn [bind].
  eexists. split; [reflexivity |]. repeat split.
Qed.

Lemma lookup_enriches_record_witness :
  @fetch_pubchem ascii_text day_clock recovering_network "50-00-0"
  = (Ok (Some {| pc_Chemical_Name := JStr "formaldehyde";
                 pc_Molecular_Formula := JStr "H2CO";
                 pc_Molecular_Weight := JStr "";
                 pc_Appearance := JStr "" |}), 2%nat, [2])
  /\ exists r,
    @process_row ascii_text day_clock recovering_network 0 "50-00-0"
      (Text "Formaldehyde") = (Ok r, [2])
    /\ Molecular_Formula r = JStr "H2CO"
    /\ Molecular_Weight r = JStr ""
    /\ Appearance r = JStr "".
Proof.
  apply (@lookup_enriches_record ascii_text day_clock recovering_network 0
      "50-00-0"
           (Text "Formaldehyde") 1%nat
           {| pc_Chemical_Name := JStr "formaldehyde";
              pc_Molecular_Formula := JStr "H2CO";
              pc_Molecular_Weight := JStr "";
              pc_Appearance := JStr "" |}).
  - split; [| reflexivity].
    intros j Hj. assert (j = 0%nat) as -> by lia.
    exists RequestException. reflexivity.
  - lia.
Defined.

(** X11. For every network the decorated lookup makes at most three
    requests and raises nothing: it returns the record of its first
    successful attempt, or [None] after exactly three failed requests and
    the delays 2, 4 and 8. *)
Theorem fetch_pubchem_outcome `{PyText} `{Clock} (net : network) (cas :
  string) :
  (exists k d,
      (k < 3)%nat /\ first_success net cas k d
      /\ fetch_pubchem net cas = (Ok (Some d), S k, backoff_delays 2 2 k))
  \/ (exhausts_retries net cas
      /\ fetch_pubchem net cas = (Ok None, 3%nat, [2; 4; 8])).
Proof.
  destruct (lookup_cases net cas) as [(k & d & Hk & Hfirst) | Hnone].
  - left. exists k, d. repeat split; try assumption; try apply Hfirst.
    apply fetch_pubchem_first; assumption.
  - right. split; [exact Hnone | apply fetch_pubchem_exhausted, Hnone].
Qed.

(** X12. [process_row] returns a record for every position, identifier,
    name and network, and sleeps at most 2 + 4 + 8 seconds doing so: the
    delays it sleeps are none, 2, then 4, then 8; storage, shipping
    conditions and applications are the same three texts in every record,
    and the CAS number is the identifier it was given. *)
Theorem process_row_bounded `{PyText} `{Clock} (net : network) (index : Z)
  (cas : string) (chemical_name : cell) :
  exists r slept,
    process_row net index cas chemical_name = (Ok r, slept)
    /\ In slept [[]; [2]; [2; 4]; [2; 4; 8]]
    /\ CAS_No r = cas
    /\ Storage r = "2-8°C Refrigerator"
    /\ Shipping_Conditions r = "Ambient"
    /\ Applications r
       = "Used in chemical synthesis, pharmaceutical or industrial research.".
Proof.
  destruct (process_row_returns net index cas chemical_name)
    as (found & n & slept & Hfetch & Hrow).
  rewrite Hrow. eexists. exists slept. split; [reflexivity |].
  split; [| repeat split].
  destruct (lookup_cases net cas) as [(k & d & Hk & Hfirst) | Hnone].
  - rewrite (fetch_pubchem_first Hfirst Hk) in Hfetch.
    injection Hfetch as _ _ <-.
    destruct k as [| [| [| k]]]; cbn; [auto | auto | auto | lia].
  - rewrite (fetch_pubchem_exhausted Hnone) in Hfetch.
    injection Hfetch as _ _ <-. cbn. auto.
Qed.

(** ** The orchestrator: failures before any write *)

(** X13. A progress file that is not a JSON object, or whose "last_row" is
    not an integer, stops the run with [AttributeError] or [TypeError]
    before anything is written: both files are left as they were. *)
Theorem main_rejects_unusable_checkpoint `{PyText} `{Clock} (cfg : Config)
  (input_df : list Row) (fs : Files) (nets : Z -> network) (sched : list nat)
  (p : json) :
  PROGRESS_FILE fs = Some p -> unusable_checkpoint p ->
  exists e,
    main cfg input_df fs nets sched = (Raise e, fs, [])
    /\ (e = AttributeError \/ e = TypeError).
Proof.
  intros Hp Hbad. unfold main, submissions, start_index. rewrite Hp.
  destruct p as [| | | | | | d]; cbn [get bind];
    try (exists AttributeError; split; [reflexivity | left; reflexivity]).
  cbn [unusable_checkpoint] in Hbad.
  destruct (assoc "last_row" d) as [v |]; [| contradiction].
  destruct v; try contradiction; cbn [as_int bind];
    exists TypeError; (split; [reflexivity | right; reflexivity]).
Qed.

Lemma main_rejects_unusable_checkpoint_witness :
  exists e,
    @main ascii_text day_clock (flush_every 5) abc_table text_checkpoint offline
      [0; 1; 2]%nat = (Raise e, text_checkpoint, [])
    /\ (e = AttributeError \/ e = TypeError).
Proof.
  apply (@main_rejects_unusable_checkpoint ascii_text day_clock (flush_every 5)
           abc_table text_checkpoint offline [0; 1; 2]%nat
           (JDict [("last_row", JStr "7")])).
  - reflexivity.
  - exact I.
Defined.

(** X14. A start index below minus the length of the work list stops the
    run with [IndexError] at its first position, before anything is
    written. *)
Theorem main_start_below_list `{PyText} `{Clock} (cfg : Config) (input_df :
  list Row)
  (fs : Files) (nets : Z -> network) (sched : list nat) (v : json)
  (start : Z) :
  start_index cfg fs = Ok v -> as_int v = Ok start ->
  start < - Z.of_nat (List.length (cas_list input_df)) ->
  main cfg input_df fs nets sched = (Raise IndexError, fs, []).
Proof.
  intros Hv Hstart Hlow. unfold main, submissions.
  rewrite Hv. cbn [bind]. rewrite Hstart. cbn [bind].
  unfold py_range.
  destruct (Z.to_nat (Z.of_nat (List.length (cas_list input_df)) - start))
    as [| n] eqn:Hn; [lia |].
  cbn [seq map submit_loop]. rewrite Z.add_0_r.
  unfold list_item at 1.
  assert (Hneg : (start <? 0) = true) by (apply Z.ltb_lt; lia).
  rewrite Hneg.
  assert (Hout : (start + Z.of_nat (List.length (cas_list input_df)) <? 0)
                 = true) by (apply Z.ltb_lt; lia).
  rewrite Hout. reflexivity.
Qed.

Lemma main_start_below_list_witness :
  @main ascii_text day_clock (start_at (-4) 5) abc_table no_files offline
    [0; 1; 2]%nat
  = (Raise IndexError, no_files, []).
Proof.
  apply (@main_start_below_list ascii_text day_clock (start_at (-4) 5) abc_table
           no_files offline [0; 1; 2]%nat (JInt (-4)) (-4)).
  - reflexivity.
  - reflexivity.
  - vm_compute. reflexivity.
Defined.

(** X15. With a flush interval of zero the run stops with
    [ZeroDivisionError] at its first completion: the record is lost, and
    neither file is written. *)
Theorem main_zero_interval `{PyText} `{Clock} (cfg : Config) (input_df : list
  Row)
  (fs : Files) (nets : Z -> network) (sched : list nat) (start : Z)
  (futures : list Task) :
  submissions cfg input_df fs = Ok (start, futures) ->
  SAVE_EVERY_N_ROWS cfg = 0 ->
  as_completed sched (map (run_task nets) futures) <> [] ->
  main cfg input_df fs nets sched = (Raise ZeroDivisionError, fs, []).
Proof.
  intros Hsub HK Hsome. unfold main. rewrite Hsub, HK.
  destruct (completed_records nets futures sched) as (records & Hrec).
  rewrite Hrec in *. destruct records as [| r records]; [contradiction |].
  reflexivity.
Qed.

Lemma main_zero_interval_witness :
  @main ascii_text day_clock (flush_every 0) abc_table no_files offline [0; 1;
      2]%nat
  = (Raise ZeroDivisionError, no_files, []).
Proof.
  apply (@main_zero_interval ascii_text day_clock (flush_every 0) abc_table
      no_files
           offline [0; 1; 2]%nat 0
           [(0, "A", Text "Alpha"); (1, "B", Text "Beta");
            (2, "C", Text "Gamma")]).
  - reflexivity.
  - reflexivity.
  - discriminate.
Defined.

(** X16. A run whose start index is at or past the end of the work list
    looks nothing up: whatever the interval (zero included) and the
    schedule, it rewrites the output file with the rows it found there (an
    empty table when there was no file) and sets the checkpoint to the
    number of identifiers, also when the start index was larger. *)
Theorem main_nothing_to_do `{PyText} `{Clock} (cfg : Config) (input_df : list
  Row)
  (fs : Files) (nets : Z -> network) (sched : list nat) (v : json)
  (start : Z) :
  start_index cfg fs = Ok v -> as_int v = Ok start ->
  Z.of_nat (List.length (cas_list input_df)) <= start ->
  submissions cfg input_df fs = Ok (start, [])
  /\ main cfg input_df fs nets sched
     = (Ok tt,
        {| PROGRESS_FILE :=
             Some (progress_json (Z.of_nat (List.length (cas_list input_df))));
           OUTPUT_FILE := Some (seed_rows fs) |},
        [Saved_output (seed_rows fs);
         Saved_progress (Z.of_nat (List.length (cas_list input_df)))]).
Proof.
  intros Hv Hstart Hge.
  assert (Hsub : submissions cfg input_df fs = Ok (start, [])).
  { unfold submissions. rewrite Hv. cbn [bind]. rewrite Hstart. cbn [bind].
    unfold py_range.
    replace (Z.to_nat (Z.of_nat (List.length (cas_list input_df)) - start))
      with 0%nat by lia.
    reflexivity. }
  split; [exact Hsub |].
  unfold main. rewrite Hsub. cbn [map].
  assert (Hnone : as_completed sched (@nil (result OutputRecord)) = []).
  { unfold as_completed. induction sched as [| k sched IH]; [reflexivity |].
    cbn [flat_map]. rewrite IH. destruct k; reflexivity. }
  rewrite Hnone. reflexivity.
Qed.

Lemma main_nothing_to_do_witness :
  @submissions ascii_text (start_at 2800 0) abc_table output_A_only
  = Ok (2800, [])
  /\ @main ascii_text day_clock (start_at 2800 0) abc_table output_A_only
       offline [0; 1; 2]%nat
     = (Ok tt,
        {| PROGRESS_FILE := Some (progress_json 3);
           OUTPUT_FILE := Some [record_A] |},
        [Saved_output [record_A]; Saved_progress 3]).
Proof.
  apply (@main_nothing_to_do ascii_text day_clock (start_at 2800 0) abc_table
           output_A_only offline [0; 1; 2]%nat (JInt 2800) 2800).
  - reflexivity.
  - reflexivity.
  - vm_compute. discriminate.
Defined.

(** ** The orchestrator: what a run writes *)

Lemma grows_weaken (tr : list io_event) :
  forall acc ext, grows (acc ++ ext) tr -> grows acc tr.
Proof.
  induction tr as [| [rows | n] tr IH]; intros acc ext; cbn [grows].
  - trivial.
  - intros ((e & ->) & Hrest). split; [| exact Hrest].
    exists (ext ++ e). rewrite app_assoc. reflexivity.
  - apply IH.
Qed.

Lemma last_written_app (tr : list io_event) :
  forall acc ext,
    exists ext', last_written (acc ++ ext) tr = last_written acc tr ++ ext'.
Proof.
  induction tr as [| [rows | n] tr IH]; intros acc ext; cbn [last_written].
  - exists ext. reflexivity.
  - exists []. rewrite app_nil_r. reflexivity.
  - apply IH.
Qed.

Lemma grows_app (t1 t2 : list io_event) :
  forall acc,
    grows acc t1 -> grows (last_written acc t1) t2 -> grows acc (t1 ++ t2).
Proof.
  induction t1 as [| [rows | n] t1 IH]; intros acc; cbn [grows last_written app].
  - intros _ H2. exact H2.
  - intros (Hext & H1) H2. split; [exact Hext | apply IH; assumption].
  - apply IH.
Qed.

Lemma grows_split (a t : list io_event) :
  forall acc,
    grows acc (a ++ t) -> exists ext, grows (acc ++ ext) t.
Proof.
  induction a as [| [rows | n] a IH]; intros acc; cbn [grows app].
  - intros Ht. exists []. rewrite app_nil_r. exact Ht.
  - intros ((e & ->) & Hrest). destruct (IH _ Hrest) as (ext & Hext).
    exists (e ++ ext). rewrite app_assoc. exact Hext.
  - apply IH.
Qed.

Lemma drain_loop_grows (completed : list (result OutputRecord)) :
  forall (K count : Z) (st st' : run_state) (r : result unit),
    drain_loop K count completed st = (r, st') ->
    exists new,
      written st' = written st ++ new
      /\ grows (output_data st) new
      /\ exists ext,
        output_data st' = last_written (output_data st) new ++ ext.
Proof.
  induction completed as [| [x | e] rest IH]; intros K count st st' r;
    cbn [drain_loop].
  - intros [= <- <-]. exists []. rewrite app_nil_r.
    split; [reflexivity |]. split; [exact I |].
    exists []. rewrite app_nil_r. reflexivity.
  - destruct (K =? 0).
    + intros [= <- <-]. exists []. cbn. rewrite app_nil_r.
      split; [reflexivity |]. split; [exact I |]. exists [x]. reflexivity.
    + destruct (count mod K =? 0); intros Hrun; apply IH in Hrun;
        destruct Hrun as (new & Hw & Hg & ext & Hout); cbn in *.
      * exists (Saved_output (output_data st ++ [x])
                :: Saved_progress count :: new).
        rewrite Hw, <- !app_assoc. cbn.
        split; [reflexivity |]. split; [| exists ext; exact Hout].
        split; [exists [x]; reflexivity | exact Hg].
      * exists new. split; [exact Hw |].
        split; [eapply grows_weaken; exact Hg |].
        destruct (last_written_app new (output_data st) [x]) as (e' & He').
        exists (e' ++ ext). rewrite Hout, He', app_assoc. reflexivity.
  - intros [= <- <-]. exists []. rewrite app_nil_r.
    split; [reflexivity |]. split; [exact I |].
    exists []. rewrite app_nil_r. reflexivity.
Qed.

Lemma grows_write (a c : list io_event) (rows : list OutputRecord) :
  forall acc,
    grows acc (a ++ Saved_output rows :: c) ->
    (exists ext, rows = acc ++ ext) /\ grows rows c.
Proof.
  intros acc Hg. apply grows_split in Hg. destruct Hg as (e0 & Hg).
  cbn [grows] in Hg. destruct Hg as ((e1 & Hrows) & Hrest).
  split; [| exact Hrest].
  exists (e0 ++ e1). rewrite Hrows, app_assoc. reflexivity.
Qed.

(** X17. The output file only ever grows.  In every run, whatever its
    outcome and however many writes it makes (the final one alone
    included): each write of the output holds the rows found in the file at
    the start followed by more, and each later write holds the rows of
    every earlier write followed by more; no row is dropped or
    reordered. *)
Theorem main_output_only_grows `{PyText} `{Clock} (cfg : Config)
  (input_df : list Row) (fs : Files) (nets : Z -> network)
  (sched : list nat) :
  grows (seed_rows fs) (snd (main cfg input_df fs nets sched))
  /\ (forall a c rows,
        snd (main cfg input_df fs nets sched) = a ++ Saved_output rows :: c ->
        exists ext, rows = seed_rows fs ++ ext)
  /\ (forall a b c rows1 rows2,
        snd (main cfg input_df fs nets sched)
        = a ++ Saved_output rows1 :: b ++ Saved_output rows2 :: c ->
        exists ext, rows2 = rows1 ++ ext).
Proof.
  assert (Hg : grows (seed_rows fs) (snd (main cfg input_df fs nets sched))).
  { unfold main.
    destruct (submissions cfg input_df fs) as [[start futures] | e];
      [| exact I].
    destruct (drain_loop _ _ _ _) as [[u | e] st'] eqn:Hrun;
      apply drain_loop_grows in Hrun;
      destruct Hrun as (new & Hw & Hgr & ext & Hout); cbn in Hw; cbn [snd].
    - cbn. rewrite Hw, <- app_assoc. apply grows_app; [exact Hgr |].
      cbn. split; [| exact I]. exists ext. exact Hout.
    - rewrite Hw. exact Hgr. }
  split; [exact Hg |]. split.
  - intros a c rows Htrace. rewrite Htrace in Hg.
    apply grows_write in Hg. exact (proj1 Hg).
  - intros a b c rows1 rows2 Htrace. rewrite Htrace in Hg.
    apply grows_write in Hg. destruct Hg as (_ & Hg).
    apply grows_write in Hg. exact (proj1 Hg).
Qed.

Lemma submissions_inv `{PyText} (cfg : Config) (input_df : list Row)
  (fs : Files) (start : Z) (futures : list Task) :
  submissions cfg input_df fs = Ok (start, futures) ->
  submit_loop input_df (cas_list input_df)
    (py_range start (Z.of_nat (List.length (cas_list input_df))))
  = Ok futures.
Proof.
  unfold submissions. intros Hsub.
  apply bind_Ok in Hsub. destruct Hsub as (v & _ & Hsub).
  apply bind_Ok in Hsub. destruct Hsub as (start' & _ & Hsub).
  apply bind_Ok in Hsub. destruct Hsub as (tasks & Hloop & Hsub).
  injection Hsub as <- <-. exact Hloop.
Qed.

Lemma main_completes `{PyText} `{Clock} (cfg : Config) (input_df : list Row)
  (fs : Files) (nets : Z -> network) (sched : list nat) (start : Z)
  (futures : list Task) :
  submissions cfg input_df fs = Ok (start, futures) ->
  SAVE_EVERY_N_ROWS cfg <> 0 ->
  exists records,
    as_completed sched (map (run_task nets) futures) = map Ok records
    /\ main cfg input_df fs nets sched
       = (Ok tt,
          {| PROGRESS_FILE :=
               Some (progress_json
                       (Z.of_nat (List.length (cas_list input_df))));
             OUTPUT_FILE := Some (seed_rows fs ++ records) |},
          mid_run_flushes start (seed_rows fs) records
            (flush_counts start (SAVE_EVERY_N_ROWS cfg) (List.length records))
          ++ final_flush (seed_rows fs) records
               (Z.of_nat (List.length (cas_list input_df)))).
Proof.
  intros Hsub HK.
  destruct (completed_records nets futures sched) as (records & Hrec).
  exists records. split; [exact Hrec |].
  unfold main. rewrite Hsub, Hrec.
  destruct (drain_loop_spec records HK start (initial_state fs))
    as (st' & Hrun & Hout & Hwr).
  rewrite Hrun. cbn. rewrite Hout, Hwr. cbn.
  rewrite <- app_assoc. reflexivity.
Qed.

Lemma completed_product_codes `{PyText} `{Clock} (nets : Z -> network)
  (futures : list Task) (records : list OutputRecord) :
  Permutation (map Ok records) (map (run_task nets) futures) ->
  Permutation (map Product_Code records)
    (map code_of_position (map position futures))
  /\ Permutation (map CAS_No records) (map (fun t => snd (fst t)) futures).
Proof.
  intros Hperm. split.
  - apply Permutation_map
      with (f := fun r : result OutputRecord =>
                   match r with Ok x => Product_Code x | Raise _ => "" end)
      in Hperm.
    rewrite !map_map in Hperm. rewrite map_map.
    erewrite (map_ext (fun t => match run_task nets t with
                                | Ok x => Product_Code x
                                | Raise _ => ""
                                end)) in Hperm; [exact Hperm |].
    intros [[i cas] name].
    destruct (run_task_returns nets i cas name) as (r & Hr & Hcode & _).
    rewrite Hr. exact Hcode.
  - apply Permutation_map
      with (f := fun r : result OutputRecord =>
                   match r with Ok x => CAS_No x | Raise _ => "" end)
      in Hperm.
    rewrite !map_map in Hperm.
    erewrite (map_ext (fun t => match run_task nets t with
                                | Ok x => CAS_No x
                                | Raise _ => ""
                                end)) in Hperm; [exact Hperm |].
    intros [[i cas] name].
    destruct (run_task_returns nets i cas name) as (r & Hr & _ & Hcas & _).
    rewrite Hr. exact Hcas.
Qed.

(** X18. A run that completes, with a non-zero interval, appends exactly
    one record for every position from the start index to the end of the
    work list, none skipped and none twice, in completion order: the
    product codes of the appended records are a permutation of the codes of
    those positions, and their CAS numbers a permutation of the submitted
    identifiers. *)
Theorem main_one_record_per_position `{PyText} `{Clock} (cfg : Config)
  (input_df : list Row) (fs : Files) (nets : Z -> network)
  (sched : list nat) (start : Z) (futures : list Task) :
  submissions cfg input_df fs = Ok (start, futures) ->
  SAVE_EVERY_N_ROWS cfg <> 0 ->
  Permutation sched (seq 0 (List.length futures)) ->
  exists records trace,
    main cfg input_df fs nets sched
    = (Ok tt,
       {| PROGRESS_FILE :=
            Some (progress_json (Z.of_nat (List.length (cas_list input_df))));
          OUTPUT_FILE := Some (seed_rows fs ++ records) |},
       trace)
    /\ Permutation (map Product_Code records)
         (map code_of_position
            (py_range start (Z.of_nat (List.length (cas_list input_df)))))
    /\ Permutation (map CAS_No records) (map (fun t => snd (fst t)) futures).
Proof.
  intros Hsub HK Hperm.
  destruct (@main_completes _ _ cfg input_df fs nets sched start futures Hsub
      HK)
    as (records & Hrec & Hmain).
  exists records. eexists. split; [exact Hmain |].
  assert (Hp : Permutation (map Ok records) (map (run_task nets) futures)).
  { rewrite <- Hrec. apply as_completed_permutation.
    rewrite length_map. exact Hperm. }
  apply completed_product_codes in Hp. destruct Hp as (Hcodes & Hcas).
  split; [| exact Hcas].
  apply submissions_inv, submit_loop_spec in Hsub.
  destruct Hsub as (Hpos & _). rewrite Hpos in Hcodes. exact Hcodes.
Qed.

Lemma main_one_record_per_position_witness :
  exists records trace,
    @main ascii_text day_clock (flush_every 2) abc_table no_files offline
      [1; 0; 2]%nat
    = (Ok tt,
       {| PROGRESS_FILE :=
            Some (progress_json (Z.of_nat (List.length (cas_list abc_table))));
          OUTPUT_FILE := Some (seed_rows no_files ++ records) |},
       trace)
    /\ Permutation (map Product_Code records)
         (map code_of_position
            (py_range 0 (Z.of_nat (List.length (cas_list abc_table)))))
    /\ Permutation (map CAS_No records)
         (map (fun t : Task => snd (fst t))
            [(0, "A", Text "Alpha"); (1, "B", Text "Beta");
             (2, "C", Text "Gamma")]).
Proof.
  apply (@main_one_record_per_position ascii_text day_clock (flush_every 2)
           abc_table no_files offline [1; 0; 2]%nat 0
           [(0, "A", Text "Alpha"); (1, "B", Text "Beta");
            (2, "C", Text "Gamma")]).
  - reflexivity.
  - discriminate.
  - apply perm_swap.
Defined.

(** X19. No checkpoint that a completing run saves exceeds the number of
    identifiers, whatever the start index, the interval and the completion
    order. *)
Theorem checkpoints_within_total `{PyText} `{Clock} (cfg : Config)
  (input_df : list Row) (fs : Files) (nets : Z -> network)
  (sched : list nat) (start : Z) (futures : list Task) (v : Z) :
  submissions cfg input_df fs = Ok (start, futures) ->
  SAVE_EVERY_N_ROWS cfg <> 0 ->
  Permutation sched (seq 0 (List.length futures)) ->
  In (Saved_progress v) (snd (main cfg input_df fs nets sched)) ->
  v <= Z.of_nat (List.length (cas_list input_df)).
Proof.
  intros Hsub HK Hperm Hin.
  destruct (@main_completes _ _ cfg input_df fs nets sched start futures Hsub
      HK)
    as (records & Hrec & Hmain).
  rewrite Hmain in Hin. cbn [snd] in Hin.
  assert (Hlen : List.length records
                 = Z.to_nat (Z.of_nat (List.length (cas_list input_df))
                             - start)).
  { assert (Hp : Permutation (map Ok records)
                   (map (run_task nets) futures)).
    { rewrite <- Hrec. apply as_completed_permutation.
      rewrite length_map. exact Hperm. }
    apply Permutation_length in Hp. rewrite !length_map in Hp.
    apply submissions_inv, submit_loop_spec in Hsub.
    destruct Hsub as (Hpos & _).
    apply (f_equal (@List.length Z)) in Hpos.
    unfold py_range in Hpos. rewrite !length_map, length_seq in Hpos.
    lia. }
  apply in_app_or in Hin. destruct Hin as [Hmid | Hfin].
  - unfold mid_run_flushes in Hmid. apply in_flat_map in Hmid.
    destruct Hmid as (c & Hc & [Hout | [Heq | []]]); [discriminate Hout |].
    injection Heq as <-.
    unfold flush_counts in Hc. apply filter_In in Hc.
    destruct Hc as (Hseq & _). apply in_seq in Hseq. lia.
  - destruct Hfin as [Hout | [Heq | []]]; [discriminate Hout |].
    injection Heq as <-. lia.
Qed.

Lemma checkpoints_within_total_witness :
  2 <= Z.of_nat (List.length (cas_list abc_table)).
Proof.
  apply (@checkpoints_within_total ascii_text day_clock (flush_every 2)
      abc_table
           no_files offline [1; 0; 2]%nat 0
           [(0, "A", Text "Alpha"); (1, "B", Text "Beta");
            (2, "C", Text "Gamma")] 2).
  - reflexivity.
  - discriminate.
  - apply perm_swap.
  - vm_compute. right. left. reflexivity.
Defined.

(** ** The orchestrator: where the names come from *)

Lemma list_item_In {A : Type} (l : list A) (i : Z) (x : A) :
  list_item l i = Ok x -> In x l.
Proof.
  unfold list_item.
  destruct ((_ <? 0) || (_ <=? _)); [discriminate |].
  destruct (nth_error l _) as [y |] eqn:Hn; [| discriminate].
  intros [= <-]. eapply nth_error_In. exact Hn.
Qed.

Lemma cas_list_In (input_df : list Row) (item : string) :
  In item (cas_list input_df) ->
  exists row, In row input_df /\ row_CAS_No row = Text item.
Proof.
  rewrite cas_list_spec. intros Hin. apply in_flat_map in Hin.
  destruct Hin as (row & Hrow & Hitem). exists row. split; [exact Hrow |].
  unfold work_items in Hitem.
  destruct (row_CAS_No row) as [| s]; [contradiction |].
  destruct Hitem as [-> | []]. reflexivity.
Qed.

Lemma submit_loop_names `{PyText} (input_df : list Row) (items : list string)
  (positions : list Z) :
  forall futures,
    submit_loop input_df items positions = Ok futures ->
    Forall (fun t => (exists item, In item items /\ snd (fst t) = strip item)
                     /\ snd t = lookup_name input_df (snd (fst t))) futures.
Proof.
  induction positions as [| i rest IH]; intros futures; cbn [submit_loop].
  - intros [= <-]. constructor.
  - intros Hsub. apply bind_Ok in Hsub. destruct Hsub as (item & Hitem & Hsub).
    apply bind_Ok in Hsub. destruct Hsub as (tail & Htail & Hsub).
    injection Hsub as <-. constructor; [| apply IH; exact Htail].
    cbn. split; [| reflexivity].
    exists item. split; [eapply list_item_In; exact Hitem | reflexivity].
Qed.

(** X20. The name of a submitted task always comes from the table: it is
    the declared name of the first row of the table whose trimmed CAS text
    is the task's identifier (no row before it has that trimmed text), so
    the fallback to the identifier itself on line 159 is never taken; and
    tasks with the same identifier carry the same name, whatever the rows
    they stand for declare. *)
Theorem names_come_from_table `{PyText} (cfg : Config) (input_df : list Row)
  (fs : Files) (start : Z) (futures : list Task) :
  submissions cfg input_df fs = Ok (start, futures) ->
  Forall (fun t =>
            exists before row after,
              input_df = before ++ row :: after
              /\ Forall (fun r => strip (astype_str (row_CAS_No r))
                                  <> snd (fst t)) before
              /\ strip (astype_str (row_CAS_No row)) = snd (fst t)
              /\ snd t = row_Chemical_Name row) futures
  /\ forall t1 t2, In t1 futures -> In t2 futures ->
                   snd (fst t1) = snd (fst t2) -> snd t1 = snd t2.
Proof.
  intros Hsub. apply submissions_inv in Hsub. split.
  - apply submit_loop_spec in Hsub. destruct Hsub as (_ & Hall).
    eapply Forall_impl; [| exact Hall].
    intros t (item & Hitem & Hcas & [Hfirst | (Hnone & _)]);
      [exact Hfirst | exfalso].
    apply list_item_In, cas_list_In in Hitem.
    destruct Hitem as (row0 & Hrow0 & Hcell).
    rewrite Forall_forall in Hnone. apply (Hnone row0 Hrow0).
    rewrite Hcell. cbn. symmetry. exact Hcas.
  - apply submit_loop_names in Hsub. rewrite Forall_forall in Hsub.
    intros t1 t2 H1 H2 Heq.
    destruct (Hsub t1 H1) as (_ & ->). destruct (Hsub t2 H2) as (_ & ->).
    rewrite Heq. reflexivity.
Qed.

(** Two rows with the identifier "A", the second written " A ": both tasks
    carry the name of the first row. *)
Lemma names_come_from_table_witness :
  Forall (fun t : Task =>
            exists before row after,
              twice_A_table = before ++ row :: after
              /\ Forall (fun r => @strip ascii_text (astype_str (row_CAS_No r))
                                  <> snd (fst t)) before
              /\ @strip ascii_text (astype_str (row_CAS_No row)) = snd (fst t)
              /\ snd t = row_Chemical_Name row)
    [(0, "A", Text "Alpha"); (1, "A", Text "Alpha")]
  /\ forall t1 t2 : Task,
      In t1 [(0, "A", Text "Alpha"); (1, "A", Text "Alpha")] ->
      In t2 [(0, "A", Text "Alpha"); (1, "A", Text "Alpha")] ->
      snd (fst t1) = snd (fst t2) -> snd t1 = snd t2.
Proof.
  apply (@names_come_from_table ascii_text (flush_every 5) twice_A_table
           no_files 0).
  reflexivity.
Defined.

(** ** The category-listing adapter: the value computed from the links *)

Lemma valid_links_app `{PyText} (links : list string) (text : string) :
  valid_links (links ++ [text])
  = valid_links links
    ++ (if plausible_link text then [link_token text] else []).
Proof.
  unfold valid_links, link_token. rewrite filter_app, map_app. cbn [filter].
  destruct (plausible_link text); reflexivity.
Qed.

(** X21. The category value is that of the last plausible link: a link
    appended to the list decides the value when its trimmed text is
    non-empty and shorter than 30 characters, and changes nothing
    otherwise; with no plausible link the value is "Impurity". *)
Theorem fetch_category_last_link_wins `{PyText} (links : list string)
  (text : string) :
  fetch_category_value (links ++ [text])
  = (if plausible_link text then link_token text
     else fetch_category_value links)
  /\ (Forall (fun t => plausible_link t = false) links ->
      fetch_category_value links = "Impurity").
Proof.
  unfold fetch_category_value. split.
  - rewrite valid_links_app. destruct (plausible_link text).
    + apply last_last.
    + rewrite app_nil_r. reflexivity.
  - intros Hnone. unfold valid_links.
    replace (filter plausible_link links) with (@nil string); [reflexivity |].
    induction Hnone as [| t rest Ht _ IH]; [reflexivity |].
    cbn [filter]. rewrite Ht. exact IH.
Qed.

(** X22. The emptiness test of line 114 looks at the link text before the
    parenthetical is cut off: a last link whose trimmed text is short and
    starts with "(" passes the test and makes the category value the empty
    text, not "Impurity" and not the token of an earlier link. *)
Theorem fetch_category_empty_token `{PyText} (links : list string)
  (text rest : string) :
  strip_of_empty ->
  strip text = String "(" rest -> (py_len (strip text) < 30)%nat ->
  fetch_category_value (links ++ [text]) = "".
Proof.
  intros Hempty Htext Hlen. unfold fetch_category_value.
  rewrite valid_links_app.
  assert (Hp : plausible_link text = true).
  { unfold plausible_link. rewrite Htext in *. cbn [String.eqb negb andb].
    apply Nat.ltb_lt. exact Hlen. }
  rewrite Hp, last_last. unfold link_token. rewrite Htext.
  cbn [before_paren Ascii.eqb Bool.eqb]. exact Hempty.
Qed.

Lemma fetch_category_empty_token_witness :
  @fetch_category_value ascii_text (["Amines (3)"] ++ [" (12) "]) = "".
Proof.
  apply (@fetch_category_empty_token ascii_text ["Amines (3)"] " (12) "
           "12)").
  - reflexivity.
  - reflexivity.
  - vm_compute. lia.
Defined.

Lemma before_paren_no_paren (s : string) :
  forall before after,
    before_paren s <> (before ++ String "(" after)%string.
Proof.
  induction s as [| c s IH]; intros before after; cbn [before_paren].
  - destruct before; discriminate.
  - destruct (Ascii.eqb c "(") eqn:Hc; [destruct before; discriminate |].
    destruct before as [| c' before]; cbn.
    + intros [= -> _]. cbn in Hc. discriminate Hc.
    + intros [= _ Heq]. exact (IH _ _ Heq).
Qed.

Lemma last_default_or_In {A : Type} (l : list A) (d : A) :
  last l d = d \/ In (last l d) l.
Proof.
  induction l as [| x l IH]; [left; reflexivity |].
  destruct l as [| y l]; [right; left; reflexivity |].
  destruct IH as [Hd | Hin]; [left | right; right]; assumption.
Qed.

(** X23. Wherever [str.strip] returns a part of its argument, the category
    value never contains an opening parenthesis. *)
Theorem fetch_category_no_paren `{PyText} (links : list string) :
  strip_keeps_part -> ~ occurs_in "(" (fetch_category_value links).
Proof.
  intros Hpart Hocc.
  assert (Hcases : fetch_category_value links = "Impurity"
                   \/ In (fetch_category_value links) (valid_links links))
    by apply last_default_or_In.
  destruct Hcases as [Hd | Hin].
  - rewrite Hd in Hocc. apply py_in_spec in Hocc. discriminate Hocc.
  - unfold valid_links in Hin. apply in_map_iff in Hin.
    destruct Hin as (text & Htok & _). rewrite <- Htok in Hocc.
    assert (Hin_cut : occurs_in (strip (before_paren (strip text)))
                        (before_paren (strip text))).
    { destruct (Hpart (before_paren (strip text))) as (b & a & Hba).
      exists b, a. exact Hba. }
    pose proof (occurs_in_trans Hocc Hin_cut) as (b & a & Hba).
    exact (before_paren_no_paren _ _ _ Hba).
Qed.

Lemma lstrip_ascii_suffix (s : string) :
  exists before, s = (before ++ lstrip_ascii s)%string.
Proof.
  induction s as [| c s (b & Hb)]; [exists ""; reflexivity |].
  cbn [lstrip_ascii]. destruct (is_space c).
  - exists (String c b). cbn. rewrite <- Hb. reflexivity.
  - exists "". reflexivity.
Qed.

Lemma rstrip_ascii_prefix (s : string) :
  exists after, s = (rstrip_ascii s ++ after)%string.
Proof.
  induction s as [| c s (a & Ha)]; [exists ""; reflexivity |].
  cbn [rstrip_ascii]. destruct (rstrip_ascii s) as [| c' r].
  - destruct (is_space c).
    + exists (String c s). reflexivity.
    + exists s. reflexivity.
  - exists a. cbn. rewrite Ha at 1. reflexivity.
Qed.

Lemma strip_ascii_part : @strip_keeps_part ascii_text.
Proof.
  intros s. cbn [strip ascii_text]. unfold strip_ascii.
  destruct (lstrip_ascii_suffix s) as (b & Hb).
  destruct (rstrip_ascii_prefix (lstrip_ascii s)) as (a & Ha).
  exists b, a. rewrite <- Ha. exact Hb.
Qed.

Lemma fetch_category_no_paren_witness :
  ~ occurs_in "(" (@fetch_category_value ascii_text
                     ["Amines (3)"; "Building Blocks (120)"]).
Proof.
  apply (@fetch_category_no_paren ascii_text
           ["Amines (3)"; "Building Blocks (120)"]).
  exact strip_ascii_part.
Defined.
